(** * scw.py: lifecycle of a single GPU instance

    A shallow embedding of [src/scw/scw.py] and the properties of its
    lifecycle functions ([start], [stop], [upload], [download]), of the
    persisted state ([save_state], [load_state], [delete_state]), of the
    polling loops and of [extract_jupyter_token].

    Python values are modelled as the script meets them: a [str] is the
    list of its code points, the values read from JSON documents are
    terms of [json], and a function of the script is a function over an
    explicit [world] (state file, local work directory, log of what the
    run did) that returns how the call ended: normally, by [sys.exit],
    by an uncaught exception, or still polling when the fuel of a
    [while True] loop ran out. *)

From Stdlib Require Import ZArith List Lia Bool String Ascii DecimalString.
Import ListNotations.
Local Open Scope Z_scope.

(** ** Python strings *)

(** A Python [str] is a sequence of code points. *)
Definition pystr := list Z.

Definition py (s : string) : pystr :=
  map (fun a => Z.of_nat (nat_of_ascii a)) (list_ascii_of_string s).

(** A code point of Python: [0 <= c <= 0x10FFFF]. *)
Definition code_point (c : Z) : Prop := 0 <= c < 0x110000.

Definition wf_str (s : pystr) : Prop := Forall code_point s.

Fixpoint str_eqb (a b : pystr) : bool :=
  match a, b with
  | [], [] => true
  | x :: a', y :: b' => (x =? y) && str_eqb a' b'
  | _, _ => false
  end.

(** [s.startswith(p)], also giving what follows the prefix. *)
Fixpoint strip_prefix (p s : pystr) : option pystr :=
  match p, s with
  | [], _ => Some s
  | x :: p', y :: s' => if x =? y then strip_prefix p' s' else None
  | _ :: _, [] => None
  end.

Definition startswith (p s : pystr) : bool :=
  match strip_prefix p s with Some _ => true | None => false end.

(** [sub in s] *)
Fixpoint str_in (sub s : pystr) : bool :=
  startswith sub s ||
  match s with
  | [] => false
  | _ :: s' => str_in sub s'
  end.

(** ** JSON values and Python's truth, equality and lookups on them *)

(** What [json.loads] returns: [None], [bool], [int], [str], [list] and
    [dict].  A [dict] keeps its keys in insertion order.  Documents with
    floating-point numbers are outside the model (see [Float]). *)
#[warnings="-register-all"]
Inductive json : Type :=
| JNull
| JBool (b : bool)
| JInt (n : Z)
| JStr (s : pystr)
| JArr (items : list json)
| JObj (members : list (pystr * json)).

Definition pydict := list (pystr * json).

(** Exceptions the script can die of. *)
Inductive exn : Type :=
| JSONDecodeError
| KeyError
| TypeError
| AttributeError
| RecursionError
| FileExistsError   (* [mkdir] on a path that is not a directory *)
| OSError.          (* another failure of the file system *)

(** The result of a pure operation of Python. *)
Inductive result (A : Type) : Type :=
| Val (a : A)
| Exc (e : exn)
| Float.    (* a float was met: outside the model *)
Arguments Val {A} a.
Arguments Exc {A} e.
Arguments Float {A}.

Definition rbind {A B} (r : result A) (k : A -> result B) : result B :=
  match r with
  | Val a => k a
  | Exc e => Exc e
  | Float => Float
  end.

Notation "'let?' x ':=' e 'in' k" := (rbind e (fun x => k))
  (at level 10, x name, e at level 100, k at level 200).
Notation "'let?' ' p ':=' e 'in' k" :=
  (rbind e (fun x => match x with p => k end))
  (at level 10, p pattern, e at level 100, k at level 200).

(** [d.get(k)], with [None] when the key is missing. *)
Fixpoint dict_lookup (d : pydict) (k : pystr) : option json :=
  match d with
  | [] => None
  | (k', v) :: d' => if str_eqb k' k then Some v else dict_lookup d' k
  end.

(** [d[k] = v]: an existing key keeps its place. *)
Fixpoint dict_set (d : pydict) (k : pystr) (v : json) : pydict :=
  match d with
  | [] => [(k, v)]
  | (k', v') :: d' =>
      if str_eqb k' k then (k', v) :: d' else (k', v') :: dict_set d' k v
  end.

(** [dict(pairs)] *)
Definition dict_of_pairs (pairs : list (pystr * json)) : pydict :=
  fold_left (fun d kv => dict_set d (fst kv) (snd kv)) pairs [].

(** [bool(v)], the test of [if v:]. *)
Definition truthy (v : json) : bool :=
  match v with
  | JNull => false
  | JBool b => b
  | JInt n => negb (n =? 0)
  | JStr s => match s with [] => false | _ => true end
  | JArr l => match l with [] => false | _ => true end
  | JObj d => match d with [] => false | _ => true end
  end.

(** [v == s] for a [str] [s]: only an equal [str] is equal to it. *)
Definition eq_str (v : json) (s : pystr) : bool :=
  match v with
  | JStr t => str_eqb t s
  | _ => false
  end.

(** [a == b] on the values of JSON documents: a [bool] is the [int] 0
    or 1, a [dict] compares as a map, the rest by shape. *)
Fixpoint py_eq (a b : json) {struct a} : bool :=
  match a, b with
  | JNull, JNull => true
  | JBool x, JBool y => Bool.eqb x y
  | JBool x, JInt n => n =? (if x then 1 else 0)
  | JInt n, JBool x => n =? (if x then 1 else 0)
  | JInt n, JInt m => n =? m
  | JStr s, JStr t => str_eqb s t
  | JArr l, JArr m =>
      (fix all2 (l m : list json) : bool :=
         match l, m with
         | [], [] => true
         | x :: l', y :: m' => py_eq x y && all2 l' m'
         | _, _ => false
         end) l m
  | JObj d, JObj e =>
      Nat.eqb (List.length d) (List.length e) &&
      (fix all (d : list (pystr * json)) : bool :=
         match d with
         | [] => true
         | (k, v) :: d' =>
             match dict_lookup e k with
             | Some v' => py_eq v v'
             | None => false
             end && all d'
         end) d
  | _, _ => false
  end.

(** [v[k]] with a [str] key [k]: [KeyError] on a [dict] without the key,
    [TypeError] on every other value ([list] and [str] indices must be
    integers, the rest is not subscriptable). *)
Definition subscript (v : json) (k : pystr) : result json :=
  match v with
  | JObj d => match dict_lookup d k with
              | Some x => Val x
              | None => Exc KeyError
              end
  | _ => Exc TypeError
  end.

(** [v.get(k)] and [v.get(k, default)]: only a [dict] has [get]. *)
Definition get_or (v : json) (k : pystr) (default : json) : result json :=
  match v with
  | JObj d => match dict_lookup d k with
              | Some x => Val x
              | None => Val default
              end
  | _ => Exc AttributeError
  end.

Definition get (v : json) (k : pystr) : result json := get_or v k JNull.

(** [for x in v]: the items of a [list], the keys of a [dict], the
    characters of a [str]; the other values are not iterable. *)
Definition iterate (v : json) : result (list json) :=
  match v with
  | JArr l => Val l
  | JObj d => Val (map (fun kv => JStr (fst kv)) d)
  | JStr s => Val (map (fun c => JStr [c]) s)
  | _ => Exc TypeError
  end.

(** ** [json.dumps] *)

(** One lower-case hexadecimal digit, as [format(n, 'x')] prints it. *)
Definition hex_digit (d : Z) : Z :=
  if d <? 10 then 48 + d else 87 + d.

(** ['\\u{0:04x}'.format(n)] *)
Definition escape_u (n : Z) : pystr :=
  [92; 117;
   hex_digit (Z.land (Z.shiftr n 12) 15);
   hex_digit (Z.land (Z.shiftr n 8) 15);
   hex_digit (Z.land (Z.shiftr n 4) 15);
   hex_digit (Z.land n 15)].

(** The replacement of one character by [py_encode_basestring_ascii]:
    backslash, the quote and the control characters with a name have a
    two-character escape, the printable ASCII characters stay, every
    other code point becomes [\uXXXX], and one beyond the basic plane a
    pair of surrogates. *)
Definition escape_char (c : Z) : pystr :=
  if c =? 92 then [92; 92]
  else if c =? 34 then [92; 34]
  else if c =? 8 then [92; 98]
  else if c =? 12 then [92; 102]
  else if c =? 10 then [92; 110]
  else if c =? 13 then [92; 114]
  else if c =? 9 then [92; 116]
  else if (32 <=? c) && (c <=? 126) then [c]
  else if c <? 0x10000 then escape_u c
  else
    let n := c - 0x10000 in
    let s1 := Z.lor 0xd800 (Z.land (Z.shiftr n 10) 0x3ff) in
    let s2 := Z.lor 0xdc00 (Z.land n 0x3ff) in
    escape_u s1 ++ escape_u s2.

Definition escape_str (s : pystr) : pystr := flat_map escape_char s.

Definition encode_basestring_ascii (s : pystr) : pystr :=
  [34] ++ escape_str s ++ [34].

(** [sep.join(parts)] *)
Fixpoint join (sep : pystr) (parts : list pystr) : pystr :=
  match parts with
  | [] => []
  | [p] => p
  | p :: rest => p ++ sep ++ join sep rest
  end.

(** [str(n)] for an [int]. *)
Definition str_of_int (n : Z) : pystr :=
  py (NilZero.string_of_int (Z.to_int n)).

(** [json.dumps(v)] with the default separators: [", "] between the items
    and [": "] after a key. *)
Fixpoint json_dumps (v : json) : pystr :=
  match v with
  | JNull => py "null"
  | JBool true => py "true"
  | JBool false => py "false"
  | JInt n => str_of_int n
  | JStr s => encode_basestring_ascii s
  | JArr l => [91] ++ join (py ", ") (map json_dumps l) ++ [93]
  | JObj d =>
      [123] ++
      join (py ", ")
        (map (fun kv => encode_basestring_ascii (fst kv) ++ py ": " ++ json_dumps (snd kv)) d)
      ++ [125]
  end.

(** ** [json.loads] *)

Definition is_ws (c : Z) : bool :=
  (c =? 32) || (c =? 9) || (c =? 10) || (c =? 13).

Fixpoint skip_ws (s : pystr) : pystr :=
  match s with
  | c :: r => if is_ws c then skip_ws r else s
  | [] => []
  end.

Definition hex_value (c : Z) : option Z :=
  if (48 <=? c) && (c <=? 57) then Some (c - 48)
  else if (97 <=? c) && (c <=? 102) then Some (c - 87)
  else if (65 <=? c) && (c <=? 70) then Some (c - 55)
  else None.

(** The four hexadecimal digits of a [\uXXXX] escape. *)
Definition decode_uXXXX (s : pystr) : option (Z * pystr) :=
  match s with
  | a :: b :: c :: d :: r =>
      match hex_value a, hex_value b, hex_value c, hex_value d with
      | Some x3, Some x2, Some x1, Some x0 =>
          let n := Z.lor (Z.shiftl x3 4) x2 in
          let n := Z.lor (Z.shiftl n 4) x1 in
          let n := Z.lor (Z.shiftl n 4) x0 in
          Some (n, r)
      | _, _, _, _ => None
      end
  | _ => None
  end.

Definition is_high_surrogate (c : Z) : bool := (0xd800 <=? c) && (c <=? 0xdbff).
Definition is_low_surrogate (c : Z) : bool := (0xdc00 <=? c) && (c <=? 0xdfff).

Definition join_surrogates (hi lo : Z) : Z :=
  0x10000 + Z.lor (Z.shiftl (hi - 0xd800) 10) (lo - 0xdc00).

(** After a [\uXXXX] that gave [u]: when [u] is a high surrogate and a
    second [\u] escape follows, its digits are decoded, and a low
    surrogate there is joined with [u] into one code point. *)
Definition surrogate_pair (u : Z) (s : pystr) : result (Z * pystr) :=
  if is_high_surrogate u then
    match strip_prefix [92; 117] s with
    | Some s' =>
        match decode_uXXXX s' with
        | Some (u2, s'') =>
            if is_low_surrogate u2 then Val (join_surrogates u u2, s'')
            else Val (u, s)
        | None => Exc JSONDecodeError
        end
    | None => Val (u, s)
    end
  else Val (u, s).

Definition unescape (e : Z) : option Z :=
  if e =? 34 then Some 34
  else if e =? 92 then Some 92
  else if e =? 47 then Some 47
  else if e =? 98 then Some 8
  else if e =? 102 then Some 12
  else if e =? 110 then Some 10
  else if e =? 114 then Some 13
  else if e =? 116 then Some 9
  else None.

(** [scanstring] in strict mode, from the character after the opening
    quote: the decoded string and the text after the closing quote.
    [fuel] bounds the characters read. *)
Fixpoint scanstring_from (fuel : nat) (s : pystr) : result (pystr * pystr) :=
  match fuel with
  | O => Exc JSONDecodeError
  | S fuel' =>
      match s with
      | [] => Exc JSONDecodeError
      | c :: r =>
          if c =? 34 then Val ([], r)
          else if c =? 92 then
            match r with
            | [] => Exc JSONDecodeError
            | e :: r1 =>
                if e =? 117 then
                  match decode_uXXXX r1 with
                  | None => Exc JSONDecodeError
                  | Some (u, r2) =>
                      let? '(ch, r3) := surrogate_pair u r2 in
                      let? '(str, rest) := scanstring_from fuel' r3 in
                      Val (ch :: str, rest)
                  end
                else
                  match unescape e with
                  | None => Exc JSONDecodeError
                  | Some ch =>
                      let? '(str, rest) := scanstring_from fuel' r1 in
                      Val (ch :: str, rest)
                  end
            end
          else if c <? 32 then Exc JSONDecodeError
          else
            let? '(str, rest) := scanstring_from fuel' r in
            Val (c :: str, rest)
      end
  end.

Definition scanstring (s : pystr) : result (pystr * pystr) :=
  scanstring_from (List.length s) s.

Definition is_digit (c : Z) : bool := (48 <=? c) && (c <=? 57).

(** The longest run of digits at the head of [s], and what follows. *)
Fixpoint take_digits (s : pystr) : pystr * pystr :=
  match s with
  | c :: r =>
      if is_digit c then let (ds, rest) := take_digits r in (c :: ds, rest)
      else ([], s)
  | [] => ([], [])
  end.

Definition int_of_digits (ds : pystr) : Z :=
  fold_left (fun acc d => acc * 10 + (d - 48)) ds 0.

(** [(\.[0-9]+)?]: whether a fraction is there. *)
Definition has_frac (s : pystr) : bool :=
  match s with
  | 46 :: r => match fst (take_digits r) with [] => false | _ => true end
  | _ => false
  end.

(** [([eE][-+]?[0-9]+)?]: whether an exponent is there. *)
Definition has_exp (s : pystr) : bool :=
  match s with
  | c :: r =>
      if (c =? 101) || (c =? 69) then
        let r' := match r with
                  | sign :: r1 => if (sign =? 45) || (sign =? 43) then r1 else r
                  | [] => r
                  end in
        match fst (take_digits r') with [] => false | _ => true end
      else false
  | [] => false
  end.

(** [NUMBER_RE.match]: an optional minus sign, then [0] or a digit of
    [1-9] with the digits that follow, then the optional fraction and
    exponent.  [None] when the pattern does not match; an [int] when
    neither a fraction nor an exponent follows the integer part. *)
Definition match_number (s : pystr) : option (result (json * pystr)) :=
  let (neg, s1) := match s with
                   | c :: r => if c =? 45 then (true, r) else (false, s)
                   | [] => (false, s)
                   end in
  match s1 with
  | c :: r =>
      let after_int (ds rest : pystr) :=
        if has_frac rest || has_exp rest then Some Float
        else
          let n := int_of_digits ds in
          Some (Val (JInt (if neg then - n else n), rest)) in
      if c =? 48 then after_int [c] r
      else if is_digit c then let (ds, rest) := take_digits s1 in after_int ds rest
      else None
  | [] => None
  end.

Section Containers.

(** The scanner of one value, [scan_once], which the two container
    parsers call for their items. *)
Variable scan : pystr -> result (json * pystr).

(** The loop of [JSONObject], from the character after the opening
    quote of a key.  [n] bounds the members read. *)
Fixpoint object_members (n : nat) (s : pystr) (pairs : list (pystr * json))
  : result (json * pystr) :=
  match n with
  | O => Exc JSONDecodeError
  | S n' =>
      let? '(key, s1) := scanstring s in
      match skip_ws s1 with
      | c :: s2 =>
          if c =? 58 then
            let? '(value, s3) := scan (skip_ws s2) in
            let pairs' := pairs ++ [(key, value)] in
            match skip_ws s3 with
            | d :: s4 =>
                if d =? 125 then Val (JObj (dict_of_pairs pairs'), s4)
                else if d =? 44 then
                  match skip_ws s4 with
                  | q :: s5 =>
                      if q =? 34 then object_members n' s5 pairs'
                      else Exc JSONDecodeError
                  | [] => Exc JSONDecodeError
                  end
                else Exc JSONDecodeError
            | [] => Exc JSONDecodeError
            end
          else Exc JSONDecodeError
      | [] => Exc JSONDecodeError
      end
  end.

(** [JSONObject], from the character after the brace. *)
Definition JSONObject (s : pystr) : result (json * pystr) :=
  match skip_ws s with
  | c :: r =>
      if c =? 125 then Val (JObj [], r)
      else if c =? 34 then object_members (List.length r) r []
      else Exc JSONDecodeError
  | [] => Exc JSONDecodeError
  end.

(** The loop of [JSONArray], from the first character of an item. *)
Fixpoint array_items (n : nat) (s : pystr) (values : list json)
  : result (json * pystr) :=
  match n with
  | O => Exc JSONDecodeError
  | S n' =>
      let? '(value, s1) := scan s in
      let values' := values ++ [value] in
      match skip_ws s1 with
      | c :: s2 =>
          if c =? 93 then Val (JArr values', s2)
          else if c =? 44 then array_items n' (skip_ws s2) values'
          else Exc JSONDecodeError
      | [] => Exc JSONDecodeError
      end
  end.

(** [JSONArray], from the character after the bracket. *)
Definition JSONArray (s : pystr) : result (json * pystr) :=
  match skip_ws s with
  | c :: r =>
      if c =? 93 then Val (JArr [], r)
      else array_items (List.length (c :: r)) (c :: r) []
  | [] => Exc JSONDecodeError
  end.

End Containers.

(** [scan_once]: one JSON value at the head of [s].  [depth] bounds the
    nesting of containers. *)
Fixpoint scan_once (depth : nat) (s : pystr) : result (json * pystr) :=
  match depth with
  | O => Exc RecursionError
  | S depth' =>
      match s with
      | [] => Exc JSONDecodeError
      | c :: r =>
          if c =? 34 then
            let? '(str, rest) := scanstring r in Val (JStr str, rest)
          else if c =? 123 then JSONObject (scan_once depth') r
          else if c =? 91 then JSONArray (scan_once depth') r
          else
            match strip_prefix (py "null") s, strip_prefix (py "true") s,
                  strip_prefix (py "false") s with
            | Some rest, _, _ => Val (JNull, rest)
            | _, Some rest, _ => Val (JBool true, rest)
            | _, _, Some rest => Val (JBool false, rest)
            | None, None, None =>
                match match_number s with
                | Some res => res
                | None =>
                    if startswith (py "NaN") s || startswith (py "Infinity") s
                       || startswith (py "-Infinity") s
                    then Float
                    else Exc JSONDecodeError
                end
            end
      end
  end.

(** [json.loads(s)] for a [str]: no byte-order mark, one value between
    optional white space, nothing after it.  A value nests no deeper
    than its text is long, so the depth given to [scan_once] is never
    used up. *)
Definition json_loads (s : pystr) : result json :=
  if startswith [0xfeff] s then Exc JSONDecodeError
  else
    let? '(v, rest) := scan_once (S (List.length s)) (skip_ws s) in
    match skip_ws rest with
    | [] => Val v
    | _ :: _ => Exc JSONDecodeError
    end.


(** ** Commands, replies and the world of a run *)

(** The commands given to a remote shell by [ssh_run]. *)
Inductive remote_command : Type :=
| EchoOk                       (* "echo ok" *)
| MkdirWorkDir                 (* f"mkdir -p {REMOTE_WORK_DIR}" *)
| TestWorkDir                  (* f"test -d {REMOTE_WORK_DIR} && echo exists" *)
| TestIsDir (filename : pystr) (* f"test -d {REMOTE_WORK_DIR}/{filename} && echo isdir" *)
| SetupScript.                 (* REMOTE_SETUP_SCRIPT *)

Inductive local_path : Type :=
| LocalWorkDir                 (* str(LOCAL_WORK_DIR) *)
| LocalWorkContents            (* f"{LOCAL_WORK_DIR}/." *)
| LocalEntry (filename : pystr). (* str(LOCAL_WORK_DIR / filename) *)

Inductive remote_path : Type :=
| RemoteWorkDir                (* REMOTE_WORK_DIR *)
| RemoteWorkContents           (* f"{REMOTE_WORK_DIR}/." *)
| RemoteEntry (filename : pystr). (* f"{REMOTE_WORK_DIR}/{filename}" *)

(** The processes the script starts, one constructor for each argument
    vector it builds. *)
Inductive command : Type :=
| ScwCreate
    (* scw instance server create type=H100-1-80G zone=fr-par-2
       image=ubuntu_noble_gpu_os_12 -o json *)
| ScwGet (instance_id : json)
    (* scw instance server get <instance_id> zone=fr-par-2 -o json *)
| ScwIpList
    (* scw instance ip list zone=fr-par-2 -o json *)
| ScwStop (instance_id : json)
    (* scw instance server stop <instance_id> zone=fr-par-2 --wait *)
| ScwDelete (instance_id : json)
    (* scw instance server delete <instance_id> zone=fr-par-2
       with-ip=true with-volumes=local *)
| SshKeygen (ip : json)
    (* ssh-keygen -R <ip> *)
| Ssh (ip : json) (cmd : remote_command)
    (* ssh <SSH_OPTS> root@{ip} <cmd> *)
| ScpTo (src : local_path) (dst : remote_path) (ip : json) (recursive : bool)
    (* scp <SSH_OPTS> [-r] <src> root@{ip}:<dst> *)
| ScpFrom (src : remote_path) (dst : local_path) (ip : json) (recursive : bool)
    (* scp <SSH_OPTS> [-r] root@{ip}:<src> <dst> *)
| SshTunnel (ip : json).
    (* ssh -N -L 8888:localhost:8888 <SSH_OPTS> root@{ip} *)

(** The values a command takes into its argument vector as they are,
    not through an f-string: [subprocess.run] wants them to be [str]. *)
Definition raw_args (c : command) : list json :=
  match c with
  | ScwGet i | ScwStop i | ScwDelete i => [i]
  | SshKeygen ip => [ip]
  | _ => []
  end.

Definition is_str (v : json) : bool :=
  match v with JStr _ => true | _ => false end.

(** [subprocess.CompletedProcess], with the output captured as text. *)
Record CompletedProcess : Type := {
  returncode : Z;
  stdout : pystr;
  stderr : pystr
}.

(** What is outside the script: the reply of the n-th process it starts
    (counted from 0 within one run), and whether the operator presses
    Ctrl+C while the script waits for that process.  The interrupt is
    modelled where the script handles it, in the tunnel. *)
Record environment : Type := {
  respond : nat -> command -> CompletedProcess;
  interrupt : nat -> bool
}.

(** A printed text: the literal parts of an f-string and the values
    formatted into it. *)
Inductive piece : Type :=
| Lit (s : string)
| Fmt (v : json)
| FmtLocal (p : local_path)
| FmtRemote (p : remote_path).

Inductive event : Type :=
| Run (c : command)             (* a process was started and waited for *)
| Printed (line : list piece)   (* print(...) *)
| PrintedInline (t : list piece) (* print(..., end='', flush=True) *)
| Sleep (seconds : Z).          (* time.sleep(seconds) *)

(** What a path of the local work directory is. *)
Inductive kind : Type := Missing | PlainFile | Directory.

(** The state a run reads and writes.  [log] lists what the run did, the
    oldest first, each event with the content of the state file at the
    time it happened. *)
Record world : Type := {
  state_file : option pystr;     (* STATE_FILE: its text, when it exists *)
  known_hosts : bool;            (* ~/.ssh/known_hosts exists *)
  work_path : kind;              (* what LOCAL_WORK_DIR is *)
  work_creatable : bool;         (* a missing LOCAL_WORK_DIR can be made *)
  entries : pystr -> kind;       (* what LOCAL_WORK_DIR / filename is *)
  calls : nat;                   (* processes started so far *)
  log : list (option pystr * event)
}.

(** [LOCAL_WORK_DIR.exists()]: true of a directory and of a plain file. *)
Definition work_dir (w : world) : bool :=
  match work_path w with
  | Missing => false
  | PlainFile | Directory => true
  end.

Definition set_state_file (f : option pystr) (w : world) : world :=
  {| state_file := f; known_hosts := known_hosts w; work_path := work_path w;
     work_creatable := work_creatable w;
     entries := entries w; calls := calls w; log := log w |}.

Definition set_work_path (k : kind) (w : world) : world :=
  {| state_file := state_file w; known_hosts := known_hosts w; work_path := k;
     work_creatable := work_creatable w;
     entries := entries w; calls := calls w; log := log w |}.

Definition record_event (e : event) (w : world) : world :=
  {| state_file := state_file w; known_hosts := known_hosts w;
     work_path := work_path w; work_creatable := work_creatable w;
     entries := entries w; calls := calls w;
     log := log w ++ [(state_file w, e)] |}.

Definition count_call (w : world) : world :=
  {| state_file := state_file w; known_hosts := known_hosts w;
     work_path := work_path w; work_creatable := work_creatable w;
     entries := entries w; calls := S (calls w);
     log := log w |}.

(** The events of a log, without the snapshots. *)
Definition events (w : world) : list event := map snd (log w).

(** ** The monad of the script *)

(** How a call ends. *)
Inductive outcome (A : Type) : Type :=
| Ret (a : A)          (* it returned *)
| Exit (status : Z)    (* sys.exit(status) *)
| Raise (e : exn)      (* an exception nobody caught *)
| Waiting              (* the fuel of a polling loop ran out *)
| Unmodelled.          (* a JSON document with a float was read *)
Arguments Ret {A} a.
Arguments Exit {A} status.
Arguments Raise {A} e.
Arguments Waiting {A}.
Arguments Unmodelled {A}.

Definition M (A : Type) : Type := world -> outcome A * world.

Definition ret {A} (a : A) : M A := fun w => (Ret a, w).

Definition bind {A B} (m : M A) (k : A -> M B) : M B :=
  fun w =>
    match m w with
    | (Ret a, w') => k a w'
    | (Exit n, w') => (Exit n, w')
    | (Raise e, w') => (Raise e, w')
    | (Waiting, w') => (Waiting, w')
    | (Unmodelled, w') => (Unmodelled, w')
    end.

Notation "x <- m ;; k" := (bind m (fun x => k))
  (at level 61, m at next level, right associativity).
Notation "m ;; k" := (bind m (fun _ => k))
  (at level 61, right associativity).

Definition sys_exit {A} (status : Z) : M A := fun w => (Exit status, w).

Definition lift {A} (r : result A) : M A :=
  fun w =>
    match r with
    | Val a => (Ret a, w)
    | Exc e => (Raise e, w)
    | Float => (Unmodelled, w)
    end.

Definition emit (e : event) : M unit := fun w => (Ret tt, record_event e w).

Definition print (line : list piece) : M unit := emit (Printed line).
Definition print_inline (t : list piece) : M unit := emit (PrintedInline t).
Definition sleep (seconds : Z) : M unit := emit (Sleep seconds).

(** ** The script *)

Section Script.

Variable env : environment.

(** [run]: [subprocess.run] raises [TypeError] on an argument that is
    not a [str]; otherwise the process runs and its reply comes from
    the environment. *)
Definition run (c : command) : M CompletedProcess :=
  fun w =>
    if forallb is_str (raw_args c) then
      (Ret (respond env (calls w) c), count_call (record_event (Run c) w))
    else (Raise TypeError, w).

Definition scw (c : command) : M CompletedProcess := run c.

Definition ssh_run (ip : json) (cmd : remote_command) : M CompletedProcess :=
  run (Ssh ip cmd).

Definition scp_to_instance (local : local_path) (remote : remote_path)
    (instance_ip : json) (recursive : bool) : M CompletedProcess :=
  run (ScpTo local remote instance_ip recursive).

Definition scp_from_instance (remote : remote_path) (local : local_path)
    (instance_ip : json) (recursive : bool) : M CompletedProcess :=
  run (ScpFrom remote local instance_ip recursive).

Definition remove_from_known_hosts (ip : json) : M unit :=
  fun w =>
    if known_hosts w then
      (run (SshKeygen ip) ;;
       print [Lit "Removed "; Fmt ip; Lit " from known_hosts"]) w
    else (Ret tt, w).

(** *** The persisted state *)

Definition save_state (instance_id instance_ip : json) : M unit :=
  fun w =>
    (Ret tt,
     set_state_file
       (Some (json_dumps (JObj [(py "id", instance_id); (py "ip", instance_ip)])))
       w).

Definition load_state : M json :=
  fun w =>
    match state_file w with
    | Some text => lift (json_loads text) w
    | None => (Ret JNull, w)
    end.

Definition delete_state : M unit :=
  fun w => (Ret tt, set_state_file None w).

(** *** Queries to the provider *)

Definition get_instance_state (instance_id : json) : M json :=
  result <- scw (ScwGet instance_id) ;;
  data <- lift (json_loads (stdout result)) ;;
  lift (get_or data (py "state") (JStr [])).

(** The loop of [get_instance_ip] over the entries of the IP list. *)
Fixpoint find_ip (instance_id : json) (ips : list json) : result json :=
  match ips with
  | [] => Val JNull
  | ip_info :: rest =>
      let? server := get ip_info (py "server") in
      let? found :=
        (if truthy server then
           let? id := get server (py "id") in Val (py_eq id instance_id)
         else Val false) in
      if found then get ip_info (py "address")
      else find_ip instance_id rest
  end.

Definition get_instance_ip (instance_id : json) : M json :=
  result <- scw ScwIpList ;;
  if negb (returncode result =? 0) then ret JNull
  else
    ips <- lift (json_loads (stdout result)) ;;
    lift (let? items := iterate ips in find_ip instance_id items).

(** *** The polling loops

    Each [while True] loop takes the number of rounds it may make; a
    loop that used them all is still [Waiting]. *)

Fixpoint wait_for_running_loop (fuel : nat) (instance_id : json) : M unit :=
  match fuel with
  | O => fun w => (Waiting, w)
  | S fuel' =>
      state <- get_instance_state instance_id ;;
      if eq_str state (py "running") then print [Lit " Ready!"]
      else
        print_inline [Lit "."] ;;
        sleep 5 ;;
        wait_for_running_loop fuel' instance_id
  end.

Definition wait_for_running (fuel : nat) (instance_id : json) : M unit :=
  print_inline [Lit "Waiting for instance to start"] ;;
  wait_for_running_loop fuel instance_id.

Fixpoint wait_for_ip_loop (fuel : nat) (instance_id : json) : M json :=
  match fuel with
  | O => fun w => (Waiting, w)
  | S fuel' =>
      ip <- get_instance_ip instance_id ;;
      if truthy ip then print [Lit " "; Fmt ip] ;; ret ip
      else
        print_inline [Lit "."] ;;
        sleep 5 ;;
        wait_for_ip_loop fuel' instance_id
  end.

Definition wait_for_ip (fuel : nat) (instance_id : json) : M json :=
  print_inline [Lit "Waiting for IP assignment"] ;;
  wait_for_ip_loop fuel instance_id.

Fixpoint wait_for_ssh_loop (fuel : nat) (instance_ip : json) : M unit :=
  match fuel with
  | O => fun w => (Waiting, w)
  | S fuel' =>
      result <- ssh_run instance_ip EchoOk ;;
      if returncode result =? 0 then print [Lit " Ready!"]
      else
        print_inline [Lit "."] ;;
        sleep 5 ;;
        wait_for_ssh_loop fuel' instance_ip
  end.

Definition wait_for_ssh (fuel : nat) (instance_ip : json) : M unit :=
  print_inline [Lit "Waiting for SSH"] ;;
  wait_for_ssh_loop fuel instance_ip.

(** *** The token of the notebook *)

Definition token_char (c : Z) : bool :=
  ((97 <=? c) && (c <=? 122)) || ((65 <=? c) && (c <=? 90))
  || ((48 <=? c) && (c <=? 57)) || (c =? 95) || (c =? 45).

Fixpoint take_token (s : pystr) : pystr :=
  match s with
  | c :: r => if token_char c then c :: take_token r else []
  | [] => []
  end.

(** A match of [token=([a-zA-Z0-9_-]+)] that starts at the head of
    [s]: its group 1, the longest run of token characters. *)
Definition match_token (s : pystr) : option pystr :=
  match strip_prefix (py "token=") s with
  | Some rest => match take_token rest with
                 | [] => None
                 | t => Some t
                 end
  | None => None
  end.

(** [re.search]: the match at the leftmost position that has one. *)
Fixpoint search_token (s : pystr) : option pystr :=
  match match_token s with
  | Some t => Some t
  | None => match s with
            | [] => None
            | _ :: s' => search_token s'
            end
  end.

Definition extract_jupyter_token (log_output : pystr) : pystr :=
  match search_token log_output with
  | Some t => t
  | None => []
  end.

(** *** Tunnel and work directory *)

Definition newline : string := String (ascii_of_nat 10) EmptyString.

(** The tunnel is a process the script waits for; it catches the
    [KeyboardInterrupt] of a Ctrl+C during that wait. *)
Definition start_ssh_tunnel (instance_ip : json) : M unit :=
  print [Lit newline; Lit "Starting SSH tunnel to "; Fmt instance_ip; Lit "..."] ;;
  print [Lit "Press Ctrl+C to disconnect, then run './scw.py stop' to terminate instance.";
         Lit newline] ;;
  fun w =>
    let w' := count_call (record_event (Run (SshTunnel instance_ip)) w) in
    if interrupt env (calls w) then print [Lit newline; Lit "Tunnel closed."] w'
    else (Ret tt, w').

(** [scp] runs with [capture=False]: the [stderr] of its result is
    [None], which is what the messages about a failed copy format. *)
Definition upload_work_dir (instance_ip : json) : M unit :=
  fun w =>
    if negb (work_dir w) then
      print [Lit "Local work directory "; FmtLocal LocalWorkDir;
             Lit " does not exist, skipping upload."] w
    else
      (print [Lit "Uploading "; FmtLocal LocalWorkDir; Lit " to ";
              FmtRemote RemoteWorkDir; Lit "..."] ;;
       ssh_run instance_ip MkdirWorkDir ;;
       result <- scp_to_instance LocalWorkContents RemoteWorkDir instance_ip true ;;
       if negb (returncode result =? 0) then
         print [Lit "Warning: Failed to upload work directory: "; Fmt JNull]
       else print [Lit "Work directory uploaded successfully."]) w.

(** [LOCAL_WORK_DIR.mkdir(parents=True, exist_ok=True)]: nothing to do
    for a directory; a missing path is made, or [OSError] is raised when
    it cannot be; a path that is a plain file raises [FileExistsError]. *)
Definition mkdir_work_dir : M unit :=
  fun w =>
    match work_path w with
    | Directory => (Ret tt, w)
    | Missing =>
        if work_creatable w then (Ret tt, set_work_path Directory w)
        else (Raise OSError, w)
    | PlainFile => (Raise FileExistsError, w)
    end.

Definition download_work_dir (instance_ip : json) : M unit :=
  mkdir_work_dir ;;
  print [Lit "Downloading "; FmtRemote RemoteWorkDir; Lit " to ";
         FmtLocal LocalWorkDir; Lit "..."] ;;
  check <- ssh_run instance_ip TestWorkDir ;;
  if negb (str_in (py "exists") (stdout check)) then
    print [Lit "Remote work directory "; FmtRemote RemoteWorkDir;
           Lit " does not exist, skipping download."]
  else
    result <- scp_from_instance RemoteWorkContents LocalWorkDir instance_ip true ;;
    if negb (returncode result =? 0) then
      print [Lit "Warning: Failed to download work directory: "; Fmt JNull]
    else print [Lit "Work directory downloaded successfully."].

(** *** The four commands *)

Definition upload (filename : pystr) : M unit :=
  state <- load_state ;;
  if negb (truthy state) then
    print [Lit "No running instance found. Run 'start' first."] ;;
    sys_exit 1
  else
    instance_ip <- lift (subscript state (py "ip")) ;;
    fun w =>
      match entries w filename with
      | Missing =>
          (print [Lit "Error: "; FmtLocal (LocalEntry filename);
                  Lit " does not exist."] ;;
           sys_exit 1) w
      | k =>
          (ssh_run instance_ip MkdirWorkDir ;;
           let is_dir := match k with Directory => true | _ => false end in
           print [Lit "Uploading "; FmtLocal (LocalEntry filename); Lit " to ";
                  FmtRemote (RemoteEntry filename); Lit "..."] ;;
           result <- scp_to_instance (LocalEntry filename) (RemoteEntry filename)
                       instance_ip is_dir ;;
           if negb (returncode result =? 0) then
             print [Lit "Upload failed: "; Fmt JNull] ;;
             sys_exit 1
           else print [Lit "Upload complete."]) w
      end.

Definition download (filename : pystr) : M unit :=
  state <- load_state ;;
  if negb (truthy state) then
    print [Lit "No running instance found. Run 'start' first."] ;;
    sys_exit 1
  else
    instance_ip <- lift (subscript state (py "ip")) ;;
    mkdir_work_dir ;;
    check <- ssh_run instance_ip (TestIsDir filename) ;;
    let is_dir := str_in (py "isdir") (stdout check) in
    print [Lit "Downloading "; FmtRemote (RemoteEntry filename); Lit " to ";
           FmtLocal (LocalEntry filename); Lit "..."] ;;
    result <- scp_from_instance (RemoteEntry filename) (LocalEntry filename)
                instance_ip is_dir ;;
    if negb (returncode result =? 0) then
      print [Lit "Download failed: "; Fmt JNull] ;;
      sys_exit 1
    else print [Lit "Download complete."].

Definition rule : piece :=
  Lit "============================================================".

Definition start (fuel : nat) : M unit :=
  state <- load_state ;;
  if truthy state then
    id <- lift (subscript state (py "id")) ;;
    ip <- lift (subscript state (py "ip")) ;;
    print [Lit "Instance already exists: "; Fmt id; Lit " ("; Fmt ip; Lit ")"] ;;
    print [Lit "Run 'stop' first to terminate it."] ;;
    sys_exit 1
  else
    print [Lit "Creating H100-1-80G instance..."] ;;
    result <- scw ScwCreate ;;
    if negb (returncode result =? 0) then
      print [Lit "Failed to create instance: "; Fmt (JStr (stderr result))] ;;
      sys_exit 1
    else
      data <- lift (json_loads (stdout result)) ;;
      instance_id <- lift (subscript data (py "id")) ;;
      print [Lit "Instance ID: "; Fmt instance_id] ;;
      wait_for_running fuel instance_id ;;
      instance_ip <- wait_for_ip fuel instance_id ;;
      remove_from_known_hosts instance_ip ;;
      save_state instance_id instance_ip ;;
      wait_for_ssh fuel instance_ip ;;
      upload_work_dir instance_ip ;;
      print [Lit "Setting up instance (apt upgrade, venv, jupyter)..."] ;;
      result <- ssh_run instance_ip SetupScript ;;
      if negb (returncode result =? 0) then
        print [Lit "Setup failed: "; Fmt (JStr (stderr result))] ;;
        sys_exit 1
      else
        let token := extract_jupyter_token (stdout result) in
        print [Lit newline; rule] ;;
        print [Lit "SETUP COMPLETE"] ;;
        print [rule] ;;
        print [Lit newline; Lit "Instance ID: "; Fmt instance_id] ;;
        print [Lit "Instance IP: "; Fmt instance_ip] ;;
        print [Lit newline; Lit "Open in browser:"] ;;
        (match token with
         | [] => print [Lit "  http://localhost:8888"]
         | _ => print [Lit "  http://localhost:8888/?token="; Fmt (JStr token)]
         end) ;;
        print [rule] ;;
        start_ssh_tunnel instance_ip.

Definition stop : M unit :=
  state <- load_state ;;
  if negb (truthy state) then
    print [Lit "No instance found. Nothing to stop."] ;;
    sys_exit 0
  else
    instance_id <- lift (subscript state (py "id")) ;;
    instance_ip <- lift (get state (py "ip")) ;;
    (if truthy instance_ip then download_work_dir instance_ip else ret tt) ;;
    print [Lit "Stopping and deleting instance "; Fmt instance_id; Lit "..."] ;;
    (if truthy instance_ip then remove_from_known_hosts instance_ip else ret tt) ;;
    print [Lit "Stopping instance..."] ;;
    result <- scw (ScwStop instance_id) ;;
    (if negb (returncode result =? 0) then
       print [Lit "Warning: Stop may have failed: "; Fmt (JStr (stderr result))]
     else ret tt) ;;
    print [Lit "Deleting instance..."] ;;
    result <- scw (ScwDelete instance_id) ;;
    (if negb (returncode result =? 0) then
       print [Lit "Warning: Delete may have failed: "; Fmt (JStr (stderr result))]
     else ret tt) ;;
    delete_state ;;
    print [Lit "Instance deleted. State cleared."].

End Script.

(** *** The command line *)

Definition usage : M unit :=
  print [Lit "Usage: ./scw.py <command> [args]"] ;;
  print [] ;;
  print [Lit "Commands:"] ;;
  print [Lit "  start            Create instance, upload ./work, install deps, start Jupyter, open tunnel"] ;;
  print [Lit "  stop             Download /scratch/work, stop and delete instance (full cleanup)"] ;;
  print [Lit "  upload <file>    Upload file from ./work/<file> to /scratch/work/<file>"] ;;
  print [Lit "  download <file>  Download file from /scratch/work/<file> to ./work/<file>"] ;;
  sys_exit 1.

(** The commands [main] knows. *)
Definition commands : list pystr :=
  [py "start"; py "stop"; py "upload"; py "download"].

(** [main], with [sys.argv] as its argument: [argv[0]] is the name of
    the script. *)
Definition main (env : environment) (fuel : nat) (argv : list pystr) : M unit :=
  let command := nth 1 argv [] in
  if Nat.ltb (List.length argv) 2 || negb (existsb (str_eqb command) commands)
  then usage
  else if str_eqb command (py "start") then start env fuel
  else if str_eqb command (py "stop") then stop env
  else if str_eqb command (py "upload") then
    if negb (Nat.eqb (List.length argv) 3) then
      print [Lit "Usage: ./scw.py upload <filename>"] ;;
      sys_exit 1
    else upload env (nth 2 argv [])
  else if str_eqb command (py "download") then
    if negb (Nat.eqb (List.length argv) 3) then
      print [Lit "Usage: ./scw.py download <filename>"] ;;
      sys_exit 1
    else download env (nth 2 argv [])
  else ret tt.

(** ** The Lifecycle Record and the observations of a run *)

(** The record a state file holds: a JSON object whose members ["id"]
    and ["ip"] are strings, as [save_state] writes it. *)
Definition record_of (w : world) : option (pystr * pystr) :=
  match state_file w with
  | Some text =>
      match json_loads text with
      | Val (JObj d) =>
          match dict_lookup d (py "id"), dict_lookup d (py "ip") with
          | Some (JStr id), Some (JStr ip) => Some (id, ip)
          | _, _ => None
          end
      | _ => None
      end
  | None => None
  end.

(** The text [save_state] writes for an identifier and an address. *)
Definition record_text (instance_id instance_ip : json) : pystr :=
  json_dumps (JObj [(py "id", instance_id); (py "ip", instance_ip)]).

(** The commands of the processes a world has seen, the oldest first. *)
Definition command_of (e : event) : list command :=
  match e with Run c => [c] | _ => [] end.

Definition processes (w : world) : list command :=
  flat_map command_of (events w).

(** Whether [mkdir_work_dir] succeeds, and the exception it raises when
    it does not. *)
Definition mkdir_ok (w : world) : bool :=
  match work_path w with
  | Directory => true
  | Missing => work_creatable w
  | PlainFile => false
  end.

Definition mkdir_error (w : world) : exn :=
  match work_path w with
  | PlainFile => FileExistsError
  | _ => OSError
  end.

Definition is_directory (k : kind) : bool :=
  match k with Directory => true | _ => false end.

(** How a single transfer ends, from the exit code of its copy. *)
Definition transfer_end (copy : CompletedProcess) : outcome unit :=
  if returncode copy =? 0 then Ret tt else Exit 1.

(** The test of the remote work directory and the copy of its contents,
    the two processes of [download_work_dir]. *)
Definition bulk_test (ip : pystr) : command := Ssh (JStr ip) TestWorkDir.
Definition bulk_copy (ip : pystr) : command :=
  ScpFrom RemoteWorkContents LocalWorkDir (JStr ip) true.

(** The processes of a teardown: those of the bulk download when the
    address is known, the removal of the host key when there is a file
    of known hosts, then stop and delete. *)
Definition teardown_processes (env : environment) (w : world) (id ip : pystr)
  : list command :=
  (match ip with
   | [] => []
   | _ =>
       bulk_test ip ::
       (if str_in (py "exists") (stdout (respond env (calls w) (bulk_test ip)))
        then [bulk_copy ip] else []) ++
       (if known_hosts w then [SshKeygen (JStr ip)] else [])
   end) ++ [ScwStop (JStr id); ScwDelete (JStr id)].

(** The processes that reach the instance itself: remote shell, copy and
    tunnel.  The others talk to the provider or to the local key store. *)
Definition remote_step (c : command) : bool :=
  match c with
  | Ssh _ _ | ScpTo _ _ _ _ | ScpFrom _ _ _ _ | SshTunnel _ => true
  | _ => false
  end.

(** The identifier in the reply to the create call of a [start] that
    begins in [w]. *)
Definition created_id (env : environment) (w : world) : result json :=
  let? data := json_loads (stdout (respond env (calls w) ScwCreate)) in
  subscript data (py "id").


(** What [get_instance_state] makes of a reply. *)
Definition reported_state (r : CompletedProcess) : result json :=
  let? data := json_loads (stdout r) in
  get_or data (py "state") (JStr []).

(** The events of a power-state poll that sees [n] times a state other
    than running and then running. *)
Fixpoint polling_events (n : nat) (instance_id : json) : list event :=
  match n with
  | O => [Run (ScwGet instance_id); Printed [Lit " Ready!"]]
  | S n' =>
      Run (ScwGet instance_id) :: PrintedInline [Lit "."] :: Sleep 5 ::
      polling_events n' instance_id
  end.

(** No high surrogate directly before a low surrogate. *)
Fixpoint no_surrogate_pair (s : pystr) : Prop :=
  match s with
  | c :: r =>
      match r with
      | d :: _ => is_high_surrogate c && is_low_surrogate d = false
      | [] => True
      end /\ no_surrogate_pair r
  | [] => True
  end.

(** *** Worlds and environments of the examples *)

Definition reply (code : Z) (out : pystr) : CompletedProcess :=
  {| returncode := code; stdout := out; stderr := [] |}.

(** A world that owns the instance [i-1] at [10.0.0.5]. *)
Definition owned : world :=
  {| state_file := Some (record_text (JStr (py "i-1")) (JStr (py "10.0.0.5")));
     known_hosts := true; work_path := Directory; work_creatable := true;
     entries := fun _ => Missing; calls := 0; log := [] |}.

(** The same, with a plain file where the local work directory should
    be. *)
Definition blocked : world :=
  {| state_file := Some (record_text (JStr (py "i-1")) (JStr (py "10.0.0.5")));
     known_hosts := true; work_path := PlainFile; work_creatable := true;
     entries := fun _ => Missing; calls := 0; log := [] |}.

Definition owned_with (k : kind) : world :=
  {| state_file := state_file owned; known_hosts := true;
     work_path := Directory; work_creatable := true;
     entries := fun _ => k; calls := 0; log := [] |}.

(** A world without a state file. *)
Definition fresh : world :=
  {| state_file := None; known_hosts := true;
     work_path := Directory; work_creatable := true;
     entries := fun _ => Missing; calls := 0; log := [] |}.

(** Every process succeeds without output. *)
Definition quiet : environment :=
  {| respond := fun _ _ => reply 0 [];
     interrupt := fun _ => true |}.

(** The provider answers the power-state query with an error: exit code
    1 and nothing on the standard output. *)
Definition failing_get : environment :=
  {| respond := fun _ c => match c with
                           | ScwGet _ => reply 1 []
                           | _ => reply 0 []
                           end;
     interrupt := fun _ => true |}.

(** Every query to the provider and every remote command fails with
    exit code 1 and no output. *)
Definition unreachable : environment :=
  {| respond := fun _ _ => reply 1 [];
     interrupt := fun _ => true |}.

(** The remote work directory is there, and its copy fails. *)
Definition failing_copy : environment :=
  {| respond := fun _ c => match c with
                           | Ssh _ TestWorkDir => reply 0 (py "exists")
                           | ScpFrom _ _ _ _ => reply 1 []
                           | _ => reply 0 []
                           end;
     interrupt := fun _ => true |}.

(** The scenario of a first start: the instance [i-1] is created, is
    pending for two queries and then running, has its address
    [10.0.0.5] at the third listing, and answers the third remote
    command; the set-up prints a token. *)
Definition scenario : environment :=
  {| respond := fun n c =>
       match c with
       | ScwCreate => reply 0 (json_dumps (JObj [(py "id", JStr (py "i-1"))]))
       | ScwGet _ =>
           reply 0 (json_dumps
             (JObj [(py "state",
                     JStr (if Nat.ltb n 3 then py "pending" else py "running"))]))
       | ScwIpList =>
           reply 0 (json_dumps
             (if Nat.ltb n 6 then JArr []
              else JArr [JObj [(py "address", JStr (py "10.0.0.5"));
                               (py "server", JObj [(py "id", JStr (py "i-1"))])]]))
       | Ssh _ EchoOk => reply (if Nat.ltb n 10 then 255 else 0) []
       | Ssh _ SetupScript => reply 0 (py "http://host:8888/?token=abc123XYZ_- ready")
       | _ => reply 0 []
       end;
     interrupt := fun _ => true |}.

(** What [get_instance_ip] makes of the reply to the listing of the
    addresses. *)
Definition listed_address (instance_id : json) (r : CompletedProcess)
  : result json :=
  if negb (returncode r =? 0) then Val JNull
  else
    let? ips := json_loads (stdout r) in
    let? items := iterate ips in
    find_ip instance_id items.

(** The events of a poll that makes [n] rounds without success: each
    round runs [c], prints a dot and sleeps. *)
Fixpoint waiting_events (n : nat) (c : command) : list event :=
  match n with
  | O => []
  | S n' => Run c :: PrintedInline [Lit "."] :: Sleep 5 :: waiting_events n' c
  end.

(** *** Frames of a run

    A computation [keeps P] when it leaves the state file as it is and
    starts only processes of [P]; the entries it adds to the log then
    all carry the state file it found, and the count of calls does not
    go down. *)

Definition entry_in (P : command -> Prop) (f : option pystr)
    (e : option pystr * event) : Prop :=
  fst e = f /\ match snd e with Run c => P c | _ => True end.

Definition extends (P : command -> Prop) (w w' : world) : Prop :=
  state_file w' = state_file w /\
  (calls w <= calls w')%nat /\
  exists l, log w' = log w ++ l /\ Forall (entry_in P (state_file w)) l.

Definition keeps (P : command -> Prop) {A} (m : M A) : Prop :=
  forall w, extends P w (snd (m w)).

Definition provider_side (c : command) : Prop := remote_step c = false.
Definition remote_side (c : command) : Prop := remote_step c = true.

(** The address [wait_for_ip] took from the listing that was the call
    number [k] of the run: what [get_instance_ip] made of the reply, a
    value that counts as true. *)
Definition address_at (env : environment) (id : json) (k : nat) (ip : json)
  : Prop :=
  listed_address id (respond env k ScwIpList) = Val ip /\ truthy ip = true.

(** The record a [start] that began in [w0] has written by the time it
    is in [w']: the identifier the create call returned, and the address
    of a listing made between [w0] and [w']. *)
Definition record_of_start (env : environment) (w0 w' : world) (text : pystr)
  : Prop :=
  exists id ip k,
    created_id env w0 = Val id /\
    (calls w0 < k < calls w')%nat /\ address_at env id k ip /\
    text = record_text id ip.

(** How a [start] that began in [w0] without a state file has gone from
    [w] to [w']: the entries it added to the log are first those of
    steps on the provider side, made without a state file, and then
    those of steps on the remote side, made with the record in the state
    file.  Either it has written nothing, and there are no entries of
    the second kind, or the state file holds the record. *)
Definition start_extends (env : environment) (w0 w w' : world) : Prop :=
  exists l1 l2,
    log w' = log w ++ l1 ++ l2 /\
    Forall (entry_in provider_side None) l1 /\
    ((state_file w' = None /\ l2 = []) \/
     (exists text,
        record_of_start env w0 w' text /\
        state_file w' = Some text /\
        Forall (entry_in remote_side (Some text)) l2)).

(** *** Replaying events

    A call that returns without touching the files leaves the world it
    found with its events added: each event goes to the log, and a
    process counts as a call. *)

Definition apply_event (w : world) (e : event) : world :=
  match e with
  | Run _ => count_call (record_event e w)
  | _ => record_event e w
  end.

Definition replay (es : list event) (w : world) : world :=
  fold_left apply_event es w.

(** [w'] is [w] after some events whose processes are [cs]. *)
Definition after (w : world) (cs : list command) (w' : world) : Prop :=
  exists es, w' = replay es w /\ flat_map command_of es = cs.

(** In [w], [m] returns [a], starts the processes [cs] and leaves the
    files as they are. *)
Definition yields {A} (m : M A) (w : world) (a : A) (cs : list command) : Prop :=
  exists w', m w = (Ret a, w') /\ after w cs w'.

(** The processes of the optional steps of a [start]: the removal of
    the host key and the bulk upload. *)
Definition keygen_processes (w : world) (ip : json) : list command :=
  if known_hosts w then [SshKeygen ip] else [].

Definition bulk_upload_processes (w : world) (ip : json) : list command :=
  if work_dir w
  then [Ssh ip MkdirWorkDir; ScpTo LocalWorkContents RemoteWorkDir ip true]
  else [].

(** The processes of a [start] that succeeds after [n1] polls of the
    power state, [n2] polls of the address and [n3] polls of the remote
    shell that were not yet ready. *)
Definition start_processes (w : world) (id ip : json) (n1 n2 n3 : nat)
  : list command :=
  [ScwCreate] ++
  repeat (ScwGet id) (S n1) ++
  repeat ScwIpList (S n2) ++
  keygen_processes w ip ++
  repeat (Ssh ip EchoOk) (S n3) ++
  bulk_upload_processes w ip ++
  [Ssh ip SetupScript; SshTunnel ip].

(** The numbers of the first remote command of such a [start] and of
    its set-up, among the processes of the run. *)
Definition first_remote_call (w : world) (ip : json) (n1 n2 : nat) : nat :=
  calls w + 3 + n1 + n2 + List.length (keygen_processes w ip).

Definition setup_call (w : world) (ip : json) (n1 n2 n3 : nat) : nat :=
  first_remote_call w ip n1 n2 + S n3 +
  List.length (bulk_upload_processes w ip).

(** * Properties *)

(** ** Reading the record *)

Lemma record_of_load (w : world) (id ip : pystr) :
  record_of w = Some (id, ip) ->
  exists d,
    load_state w = (Ret (JObj d), w) /\ truthy (JObj d) = true /\
    dict_lookup d (py "id") = Some (JStr id) /\
    dict_lookup d (py "ip") = Some (JStr ip).
Proof.
  unfold record_of, load_state.
  destruct (state_file w) as [text|]; [|discriminate].
  destruct (json_loads text) as [[| | | | |d]| |]; try discriminate.
  destruct (dict_lookup d (py "id")) as [[| | |i| |]|] eqn:Hid; try discriminate.
  destruct (dict_lookup d (py "ip")) as [[| | |a| |]|] eqn:Hip; try discriminate.
  intros H; injection H as -> ->.
  exists d. repeat split; auto.
  destruct d; [discriminate Hid | reflexivity].
Qed.

(** [use_record H] replaces the first steps of a command, the load of
    the state and the tests on it, by their results. *)
Ltac use_record H :=
  let d := fresh "d" in
  let Hload := fresh "Hload" in
  let Htrue := fresh "Htrue" in
  let Hid := fresh "Hid" in
  let Hip := fresh "Hip" in
  destruct (record_of_load _ _ _ H) as (d & Hload & Htrue & Hid & Hip);
  unfold bind at 1; rewrite Hload; rewrite Htrue; cbn [negb];
  unfold subscript, get, get_or, lift, bind; rewrite ?Hid, ?Hip.

#[global] Arguments py : simpl never.
#[global] Arguments str_in : simpl never.
#[global] Arguments json_loads : simpl never.
#[global] Arguments json_dumps : simpl never.

(** [branches] runs a command to its end, splitting on every test of
    the environment it meets on the way. *)
Ltac use_tests :=
  repeat match goal with
         | H : ?t = true |- context [?t] => rewrite H
         | H : ?t = false |- context [?t] => rewrite H
         end.

Ltac settle := cbn; use_tests; cbn.

Ltac branches :=
  settle;
  repeat (match goal with
          | |- context [if known_hosts ?w then _ else _] =>
              destruct (known_hosts w) eqn:?
          | |- context [if negb (str_in ?a ?b) then _ else _] =>
              destruct (str_in a b) eqn:?
          | |- context [if negb (returncode ?r =? 0) then _ else _] =>
              destruct (returncode r =? 0) eqn:?
          end; settle).

(** ** The processes of a run *)

Lemma processes_run (c : command) (w : world) :
  processes (record_event (Run c) w) = processes w ++ [c].
Proof. unfold processes, events. cbn. rewrite map_app, flat_map_app. reflexivity. Qed.

Lemma processes_printed (l : list piece) (w : world) :
  processes (record_event (Printed l) w) = processes w.
Proof.
  unfold processes, events. cbn. rewrite map_app, flat_map_app. apply app_nil_r.
Qed.

Lemma processes_printed_inline (l : list piece) (w : world) :
  processes (record_event (PrintedInline l) w) = processes w.
Proof.
  unfold processes, events. cbn. rewrite map_app, flat_map_app. apply app_nil_r.
Qed.

Lemma processes_sleep (n : Z) (w : world) :
  processes (record_event (Sleep n) w) = processes w.
Proof.
  unfold processes, events. cbn. rewrite map_app, flat_map_app. apply app_nil_r.
Qed.

Lemma processes_app (w w' : world) (l : list (option pystr * event)) :
  log w' = log w ++ l ->
  processes w' = processes w ++ flat_map command_of (map snd l).
Proof.
  intros H. unfold processes, events. rewrite H, map_app. apply flat_map_app.
Qed.

Lemma processes_count_call (w : world) : processes (count_call w) = processes w.
Proof. reflexivity. Qed.

Lemma processes_set_state_file (f : option pystr) (w : world) :
  processes (set_state_file f w) = processes w.
Proof. reflexivity. Qed.

Lemma processes_set_work_path (k : kind) (w : world) :
  processes (set_work_path k w) = processes w.
Proof. reflexivity. Qed.

Create Rewrite HintDb world.
#[export] Hint Rewrite processes_run processes_printed processes_printed_inline
  processes_sleep processes_count_call processes_set_state_file
  processes_set_work_path : world.

(** ** The guards of the commands *)

(** C10: with a Lifecycle Record and no local path
    [LOCAL_WORK_DIR / filename], [upload] prints the error and exits
    with status 1; it starts no process, and the world it leaves is the
    one it found, with the printed line added to the log. *)
Theorem upload_missing_path (env : environment) (w : world)
    (filename id ip : pystr) :
  record_of w = Some (id, ip) ->
  entries w filename = Missing ->
  upload env filename w =
    (Exit 1,
     record_event
       (Printed [Lit "Error: "; FmtLocal (LocalEntry filename);
                 Lit " does not exist."]) w).
Proof.
  intros Hrec Hmiss. unfold upload.
  use_record Hrec.
  rewrite Hmiss. reflexivity.
Qed.

Lemma upload_missing_path_witness :
  upload quiet (py "model.bin") owned =
    (Exit 1,
     record_event
       (Printed [Lit "Error: "; FmtLocal (LocalEntry (py "model.bin"));
                 Lit " does not exist."]) owned).
Proof.
  apply (upload_missing_path quiet owned (py "model.bin") (py "i-1") (py "10.0.0.5"));
    reflexivity.
Defined.

(** C2: in a state with a Lifecycle Record, [start] prints the
    identifier and the address of the record and exits with status 1.
    It starts no process (the count of calls and the log of processes
    are those of the state it found), and state file, work directory and
    known hosts are unchanged: the world differs by the two printed
    lines only. *)
Theorem start_refuses_second_instance (env : environment) (fuel : nat)
    (w : world) (id ip : pystr) :
  record_of w = Some (id, ip) ->
  start env fuel w =
    (Exit 1,
     record_event (Printed [Lit "Run 'stop' first to terminate it."])
       (record_event
          (Printed [Lit "Instance already exists: "; Fmt (JStr id); Lit " (";
                    Fmt (JStr ip); Lit ")"]) w)).
Proof.
  intros Hrec. unfold start.
  use_record Hrec. reflexivity.
Qed.

Lemma start_refuses_second_instance_witness :
  start quiet 7 owned =
    (Exit 1,
     record_event (Printed [Lit "Run 'stop' first to terminate it."])
       (record_event
          (Printed [Lit "Instance already exists: "; Fmt (JStr (py "i-1"));
                    Lit " ("; Fmt (JStr (py "10.0.0.5")); Lit ")"]) owned)).
Proof.
  apply (start_refuses_second_instance quiet 7 owned (py "i-1") (py "10.0.0.5")).
  reflexivity.
Defined.

(** ** Single transfers *)

(** What [mkdir_work_dir] does: it returns, with the work directory in
    place and nothing else changed, exactly when [mkdir_ok]; otherwise
    it raises [mkdir_error] and changes nothing. *)
Lemma mkdir_work_dir_run (w : world) :
  if mkdir_ok w then
    exists w1,
      mkdir_work_dir w = (Ret tt, w1) /\
      work_path w1 = Directory /\
      state_file w1 = state_file w /\ known_hosts w1 = known_hosts w /\
      calls w1 = calls w /\ log w1 = log w
  else mkdir_work_dir w = (Raise (mkdir_error w), w).
Proof.
  unfold mkdir_ok, mkdir_work_dir, mkdir_error.
  destruct (work_path w) eqn:Hk; [destruct (work_creatable w)| |];
    try reflexivity; eexists; (split; [reflexivity|]); repeat split.
  exact Hk.
Qed.

(** [ready H] splits on the state of the local work directory in a
    command that is about to make it, given that the making succeeds. *)
Ltac ready H :=
  unfold mkdir_work_dir; unfold mkdir_ok in H;
  destruct (work_path _) eqn:?;
    [destruct (work_creatable _) eqn:?; [|discriminate H] | discriminate H |];
    clear H.

(** C8: with a Lifecycle Record, [upload] of an existing local path runs
    the remote [mkdir] and then one [scp], recursive exactly when the
    local path is a directory.  [download] first makes the local work
    directory: when that fails it dies of the exception before any
    process, so without any copy; otherwise it runs the remote directory
    test and then one [scp], recursive exactly when the output of the
    test contains [isdir].  Each transfer returns when its copy exits
    with 0 and exits with status 1 otherwise. *)
Theorem single_path_transfer (env : environment) (w : world)
    (filename id ip : pystr) :
  record_of w = Some (id, ip) ->
  (entries w filename <> Missing ->
   let copy := ScpTo (LocalEntry filename) (RemoteEntry filename) (JStr ip)
                 (is_directory (entries w filename)) in
   exists w',
     upload env filename w = (transfer_end (respond env (S (calls w)) copy), w') /\
     processes w' = processes w ++ [Ssh (JStr ip) MkdirWorkDir; copy])
  /\
  (let test := Ssh (JStr ip) (TestIsDir filename) in
   let copy := ScpFrom (RemoteEntry filename) (LocalEntry filename) (JStr ip)
                 (str_in (py "isdir") (stdout (respond env (calls w) test))) in
   if mkdir_ok w then
     exists w',
       download env filename w
       = (transfer_end (respond env (S (calls w)) copy), w') /\
       processes w' = processes w ++ [test; copy]
   else download env filename w = (Raise (mkdir_error w), w)).
Proof.
  intros Hrec. split.
  - intros Hex copy. unfold upload. use_record Hrec.
    unfold transfer_end, copy.
    destruct (entries w filename) eqn:Hk; [congruence | |];
      branches; eexists; (split; [reflexivity|]);
      autorewrite with world; rewrite <- app_assoc; reflexivity.
  - intros test copy.
    destruct (mkdir_ok w) eqn:Hok; unfold download; use_record Hrec.
    + unfold transfer_end, copy, test.
      ready Hok;
        branches; eexists; (split; [reflexivity|]);
        autorewrite with world; rewrite <- app_assoc; reflexivity.
    + revert Hok. unfold mkdir_ok, mkdir_work_dir, mkdir_error.
      destruct (work_path w); [destruct (work_creatable w)| |];
        intros Hok; try discriminate Hok; reflexivity.
Qed.

Lemma single_path_transfer_witness :
  (exists w',
     upload quiet (py "data") (owned_with Directory) = (Ret tt, w') /\
     processes w' =
       [Ssh (JStr (py "10.0.0.5")) MkdirWorkDir;
        ScpTo (LocalEntry (py "data")) (RemoteEntry (py "data"))
          (JStr (py "10.0.0.5")) true])
  /\
  (exists w',
     download quiet (py "data") (owned_with Directory) = (Ret tt, w') /\
     processes w' =
       [Ssh (JStr (py "10.0.0.5")) (TestIsDir (py "data"));
        ScpFrom (RemoteEntry (py "data")) (LocalEntry (py "data"))
          (JStr (py "10.0.0.5")) false])
  /\
  download quiet (py "data") blocked = (Raise FileExistsError, blocked).
Proof.
  destruct (single_path_transfer quiet (owned_with Directory) (py "data")
              (py "i-1") (py "10.0.0.5") eq_refl) as [Hup Hdown].
  destruct (single_path_transfer quiet blocked (py "data")
              (py "i-1") (py "10.0.0.5") eq_refl) as [_ Hblocked].
  split; [|split].
  - apply Hup. discriminate.
  - apply Hdown.
  - apply Hblocked.
Defined.

(** ** Teardown *)

(** A teardown from a state with a record, when the record has no
    address or the local work directory is or can be made: it returns,
    the state file is gone, its processes are those of
    [teardown_processes] in that order, and every process ran while the
    file was still as the teardown found it. *)
Lemma stop_run (env : environment) (w : world) (id ip : pystr) :
  record_of w = Some (id, ip) ->
  ip = [] \/ mkdir_ok w = true ->
  exists w' l,
    stop env w = (Ret tt, w') /\
    state_file w' = None /\
    processes w' = processes w ++ teardown_processes env w id ip /\
    log w' = log w ++ l /\
    (forall s c, In (s, Run c) l -> s = state_file w).
Proof.
  intros Hrec Hready. unfold stop. use_record Hrec.
  destruct ip as [|c ip']; cbn [truthy];
    [|destruct Hready as [Hnil | Hok]; [discriminate Hnil|];
      unfold download_work_dir; unfold bind at 1; ready Hok];
    unfold remove_from_known_hosts;
    branches;
    do 2 eexists; (split; [reflexivity|]); (split; [reflexivity|]);
    match goal with
    | |- _ /\ log ?w' = _ ++ ?l /\ _ =>
        assert (Hlog : log w' = log w ++ l)
          by (cbn; rewrite <- ?app_assoc; reflexivity)
    end;
    (split;
     [rewrite (processes_app _ _ _ Hlog);
      unfold teardown_processes, bulk_test, bulk_copy; use_tests; reflexivity|]);
    (split; [exact Hlog|]);
    cbn; intros s c0 Hin; intuition congruence.
Qed.

(** A teardown from a record with an address, when the local work
    directory cannot be made: [stop] dies of the exception of [mkdir],
    in the world it found. *)
Lemma stop_raises (env : environment) (w : world) (id ip : pystr) :
  record_of w = Some (id, ip) ->
  ip <> [] ->
  mkdir_ok w = false ->
  stop env w = (Raise (mkdir_error w), w).
Proof.
  intros Hrec Hip Hok. unfold stop. use_record Hrec.
  destruct ip as [|c ip']; [congruence|]. cbn [truthy].
  revert Hok.
  unfold download_work_dir, bind, mkdir_ok, mkdir_work_dir, mkdir_error.
  destruct (work_path w); [destruct (work_creatable w)| |];
    intros Hok; try discriminate Hok; reflexivity.
Qed.

(** C3: from a state with a Lifecycle Record in which the local work
    directory is there or can be made (or the record has no address, so
    that nothing is downloaded), [stop] returns and leaves no state
    file, whatever the replies to the bulk download, to the stop and to
    the delete are; the file is removed last, after every process of
    the teardown has run. *)
Theorem stop_clears_record (env : environment) (w : world) (id ip : pystr) :
  record_of w = Some (id, ip) ->
  ip = [] \/ mkdir_ok w = true ->
  exists w' l,
    stop env w = (Ret tt, w') /\
    state_file w' = None /\
    record_of w' = None /\
    log w' = log w ++ l /\
    (forall s c, In (s, Run c) l -> s = state_file w) /\
    (exists before, processes w' = before ++ [ScwStop (JStr id); ScwDelete (JStr id)]).
Proof.
  intros Hrec Hready.
  destruct (stop_run env w id ip Hrec Hready)
    as (w' & l & Hrun & Hfile & Hproc & Hlog & Hsnap).
  exists w', l. repeat split; auto.
  - unfold record_of. rewrite Hfile. reflexivity.
  - rewrite Hproc. unfold teardown_processes. rewrite app_assoc. eauto.
Qed.

Lemma stop_clears_record_witness :
  exists w' l,
    stop unreachable owned = (Ret tt, w') /\
    state_file w' = None /\
    record_of w' = None /\
    log w' = log owned ++ l /\
    (forall s c, In (s, Run c) l -> s = state_file owned) /\
    (exists before,
       processes w' =
         before ++ [ScwStop (JStr (py "i-1")); ScwDelete (JStr (py "i-1"))]).
Proof.
  apply (stop_clears_record unreachable owned (py "i-1") (py "10.0.0.5")).
  - reflexivity.
  - right. reflexivity.
Defined.

(** With a plain file where the local work directory should be, [stop]
    dies of [FileExistsError] before it starts a process, and the record
    stays: a state with a record from which [stop] does not clear it. *)
Lemma stop_keeps_record_counterexample :
  ~ (forall (env : environment) (w : world) (id ip : pystr),
       record_of w = Some (id, ip) ->
       exists w', stop env w = (Ret tt, w') /\ record_of w' = None).
Proof.
  intros H.
  destruct (H quiet blocked (py "i-1") (py "10.0.0.5") eq_refl) as (w' & Hrun & _).
  rewrite (stop_raises quiet blocked (py "i-1") (py "10.0.0.5")) in Hrun;
    [discriminate Hrun | reflexivity | discriminate | reflexivity].
Qed.

(** Where the stop and the delete stand in a list that starts with the
    test [t] and ends with them: after [t] and after everything in
    between. *)
Lemma destroy_comes_last (t s d c : command) (mid pre post : list command) :
  t :: mid ++ [s; d] = pre ++ c :: post ->
  c = s \/ c = d ->
  t <> s -> t <> d -> ~ In s mid -> ~ In d mid ->
  In t pre /\ forall x, In x mid -> In x pre.
Proof.
  intros Heq Hc Hts Htd Hs Hd.
  destruct pre as [|p pre].
  { cbn in Heq. injection Heq as <- _. destruct Hc; congruence. }
  cbn in Heq. injection Heq as <- Heq.
  split; [left; reflexivity|].
  intros x Hx. right. revert pre Heq Hx.
  induction mid as [|m mid IH]; intros pre Heq Hx; [contradiction|].
  destruct pre as [|p pre].
  { cbn in Heq. injection Heq as <- _. exfalso.
    destruct Hc as [-> | ->]; [apply Hs | apply Hd]; left; reflexivity. }
  cbn in Heq. injection Heq as <- Heq.
  destruct Hx as [<- | Hx]; [left; reflexivity|].
  right. apply IH; try assumption.
  - intros Hin. apply Hs. right. exact Hin.
  - intros Hin. apply Hd. right. exact Hin.
Qed.

(** C4: in a teardown from a record with a known address, the processes
    of the bulk download (the test of the remote directory and, when the
    test finds it, the copy) come before the stop and the delete of the
    instance, whatever the download does.  When the local work
    directory is there or can be made, [stop] returns and has run the
    test, the copy when the test found the directory, the removal of
    the host key when there is a file of known hosts, the stop and the
    delete, in that order, whatever the replies are; when it cannot be
    made, [stop] dies of the exception and has run no process at all,
    so no stop and no delete either. *)
Theorem download_before_destroy (env : environment) (w : world) (id ip : pystr) :
  record_of w = Some (id, ip) ->
  ip <> [] ->
  exists l,
    processes (snd (stop env w)) = processes w ++ l /\
    (forall pre c post,
       l = pre ++ c :: post ->
       c = ScwStop (JStr id) \/ c = ScwDelete (JStr id) ->
       In (bulk_test ip) pre /\ (In (bulk_copy ip) l -> In (bulk_copy ip) pre)) /\
    (if mkdir_ok w then
       fst (stop env w) = Ret tt /\
       l = [bulk_test ip] ++
           (if str_in (py "exists") (stdout (respond env (calls w) (bulk_test ip)))
            then [bulk_copy ip] else []) ++
           (if known_hosts w then [SshKeygen (JStr ip)] else []) ++
           [ScwStop (JStr id); ScwDelete (JStr id)]
     else fst (stop env w) = Raise (mkdir_error w) /\ l = []).
Proof.
  intros Hrec Hip.
  destruct (mkdir_ok w) eqn:Hok.
  - destruct (stop_run env w id ip Hrec (or_intror Hok))
      as (w' & l & Hrun & _ & Hproc & _).
    rewrite Hrun. cbn [fst snd].
    exists (teardown_processes env w id ip). split; [exact Hproc|].
    unfold teardown_processes.
    destruct ip as [|c0 ip']; [congruence|].
    set (ip := c0 :: ip') in *.
    set (copy := if str_in (py "exists") (stdout (respond env (calls w) (bulk_test ip)))
                 then [bulk_copy ip] else []).
    set (keygen := if known_hosts w then [SshKeygen (JStr ip)] else []).
    split; [|split; [reflexivity | cbn [app]; rewrite <- !app_assoc; reflexivity]].
    intros pre c post Hl Hc.
    change (bulk_test ip :: (copy ++ keygen) ++ [ScwStop (JStr id); ScwDelete (JStr id)]
            = pre ++ c :: post) in Hl.
    destruct (destroy_comes_last _ _ _ _ _ _ _ Hl Hc) as [Htest Hmid];
      try discriminate.
    + subst copy keygen. unfold bulk_copy.
      destruct (str_in _ _), (known_hosts w); cbn; intuition discriminate.
    + subst copy keygen. unfold bulk_copy.
      destruct (str_in _ _), (known_hosts w); cbn; intuition discriminate.
    + split; [exact Htest|]. intros Hin. apply Hmid.
      apply in_app_or in Hin. destruct Hin as [[Ht | Hin] | Hin].
      * discriminate Ht.
      * exact Hin.
      * unfold bulk_copy in Hin. cbn in Hin. intuition discriminate.
  - rewrite (stop_raises env w id ip Hrec Hip Hok). cbn [fst snd].
    exists []. split; [symmetry; apply app_nil_r|].
    split; [|split; reflexivity].
    intros pre c post Hl. destruct pre; discriminate Hl.
Qed.

Lemma download_before_destroy_witness :
  exists l,
    processes (snd (stop failing_copy owned)) = processes owned ++ l /\
    fst (stop failing_copy owned) = Ret tt /\
    l = [bulk_test (py "10.0.0.5"); bulk_copy (py "10.0.0.5");
         SshKeygen (JStr (py "10.0.0.5"));
         ScwStop (JStr (py "i-1")); ScwDelete (JStr (py "i-1"))] /\
    (forall pre c post,
       l = pre ++ c :: post ->
       c = ScwStop (JStr (py "i-1")) \/ c = ScwDelete (JStr (py "i-1")) ->
       In (bulk_test (py "10.0.0.5")) pre /\
       (In (bulk_copy (py "10.0.0.5")) l -> In (bulk_copy (py "10.0.0.5")) pre)).
Proof.
  destruct (download_before_destroy failing_copy owned (py "i-1") (py "10.0.0.5"))
    as (l & Hproc & Horder & Hrun & Hl); [reflexivity | discriminate |].
  exists l. split; [exact Hproc|]. split; [exact Hrun|].
  split; [exact Hl | exact Horder].
Defined.

(** ** Polling the power state *)

Lemma events_app (w w' : world) (l : list (option pystr * event)) :
  log w' = log w ++ l -> events w' = events w ++ map snd l.
Proof. intros H. unfold events. rewrite H. apply map_app. Qed.

(** One query of the power state: the process runs, and the call ends
    as the reading of its reply does. *)
Lemma get_instance_state_run (env : environment) (id : pystr) (w : world) :
  get_instance_state env (JStr id) w =
    lift (reported_state (respond env (calls w) (ScwGet (JStr id))))
      (count_call (record_event (Run (ScwGet (JStr id))) w)).
Proof.
  unfold get_instance_state, reported_state, scw, run, bind, lift. cbn.
  destruct (json_loads _) as [data| |]; cbn; try reflexivity.
Qed.

Lemma wait_for_running_loop_run (env : environment) (id : pystr)
    (n extra : nat) :
  forall w : world,
    (forall k, (k < n)%nat ->
       reported_state (respond env (calls w + k) (ScwGet (JStr id)))
       = Val (JStr (py "pending"))) ->
    reported_state (respond env (calls w + n) (ScwGet (JStr id)))
    = Val (JStr (py "running")) ->
    exists w',
      wait_for_running_loop env (S n + extra) (JStr id) w = (Ret tt, w') /\
      state_file w' = state_file w /\
      calls w' = (calls w + S n)%nat /\
      events w' = events w ++ polling_events n (JStr id).
Proof.
  induction n as [|n IH]; intros w Hpending Hrunning.
  - cbn [Nat.add wait_for_running_loop]. unfold bind.
    rewrite get_instance_state_run.
    rewrite Nat.add_0_r in Hrunning. rewrite Hrunning. cbn.
    eexists. split; [reflexivity|]. cbn.
    repeat split; [lia|].
    unfold events. cbn. rewrite !map_app, <- app_assoc. reflexivity.
  - change (S (S n) + extra)%nat with (S (S n + extra)).
    cbn [wait_for_running_loop]. unfold bind at 1.
    rewrite get_instance_state_run.
    pose proof (Hpending 0%nat ltac:(lia)) as H0.
    rewrite Nat.add_0_r in H0. rewrite H0. cbn [lift].
    change (eq_str (JStr (py "pending")) (py "running")) with false. cbv iota.
    unfold bind, print_inline, sleep, emit.
    set (w2 := record_event _ (record_event _ (count_call _))).
    destruct (IH w2) as (w' & Hrun & Hfile & Hcalls & Hev).
    + intros k Hk. replace (calls w2 + k)%nat with (calls w + S k)%nat
        by (subst w2; cbn; lia).
      apply Hpending. lia.
    + replace (calls w2 + n)%nat with (calls w + S n)%nat
        by (subst w2; cbn; lia).
      exact Hrunning.
    + exists w'. split; [exact Hrun|]. split; [rewrite Hfile; reflexivity|].
      split; [rewrite Hcalls; subst w2; cbn; lia|].
      rewrite Hev. subst w2. unfold events. cbn.
      rewrite !map_app, <- !app_assoc. reflexivity.
Qed.

(** C6: when the provider reports pending for the first [n] queries and
    running for the next one, the poll of the power state returns after
    exactly [n + 1] queries, with a sleep of 5 between a query and the
    next, for every [n]: the loop has no bound of its own, and any fuel
    above [n] lets the model reach the end. *)
Theorem wait_for_running_terminates (env : environment) (id : pystr)
    (n extra : nat) (w : world) :
  (forall k, (k < n)%nat ->
     reported_state (respond env (calls w + k) (ScwGet (JStr id)))
     = Val (JStr (py "pending"))) ->
  reported_state (respond env (calls w + n) (ScwGet (JStr id)))
  = Val (JStr (py "running")) ->
  exists w',
    wait_for_running env (S n + extra) (JStr id) w = (Ret tt, w') /\
    calls w' = (calls w + S n)%nat /\
    processes w' = processes w ++ repeat (ScwGet (JStr id)) (S n) /\
    events w' =
      events w ++
      PrintedInline [Lit "Waiting for instance to start"] ::
      polling_events n (JStr id).
Proof.
  intros Hpending Hrunning.
  unfold wait_for_running, bind, print_inline, emit.
  set (w1 := record_event _ w).
  destruct (wait_for_running_loop_run env id n extra w1) as (w' & Hrun & _ & Hcalls & Hev).
  - exact Hpending.
  - exact Hrunning.
  - exists w'. split; [exact Hrun|]. split; [exact Hcalls|].
    assert (Hevents : events w' =
              events w ++ PrintedInline [Lit "Waiting for instance to start"] ::
              polling_events n (JStr id)).
    { rewrite Hev. subst w1. unfold events. cbn.
      rewrite map_app, <- app_assoc. reflexivity. }
    split; [|exact Hevents].
    unfold processes. rewrite Hevents, flat_map_app. f_equal.
    clear. cbn [flat_map command_of app].
    induction n as [|n IH]; [reflexivity|].
    cbn [polling_events flat_map command_of app]. rewrite IH. reflexivity.
Qed.

Lemma wait_for_running_terminates_witness :
  exists w',
    wait_for_running scenario (S 2 + 0) (JStr (py "i-1")) (count_call fresh)
    = (Ret tt, w') /\
    calls w' = (calls (count_call fresh) + S 2)%nat /\
    processes w' =
      processes (count_call fresh) ++ repeat (ScwGet (JStr (py "i-1"))) (S 2) /\
    events w' =
      events (count_call fresh) ++
      PrintedInline [Lit "Waiting for instance to start"] ::
      polling_events 2 (JStr (py "i-1")).
Proof.
  apply (wait_for_running_terminates scenario (py "i-1") 2 0 (count_call fresh)).
  - intros k Hk.
    destruct k as [|[|k]]; [reflexivity | reflexivity | exfalso; lia].
  - reflexivity.
Defined.


(** ** A failed query in the polling loops *)

(** A query of the address that exits with an error counts as no
    address yet: the loop sleeps and asks again. *)
Lemma wait_for_ip_retries_on_error (env : environment) (fuel : nat)
    (id : json) (w : world) :
  returncode (respond env (calls w) ScwIpList) <> 0 ->
  wait_for_ip_loop env (S fuel) id w =
    wait_for_ip_loop env fuel id
      (record_event (Sleep 5)
         (record_event (PrintedInline [Lit "."])
            (count_call (record_event (Run ScwIpList) w)))).
Proof.
  intros Hcode. apply Z.eqb_neq in Hcode.
  cbn [wait_for_ip_loop]. unfold bind at 1.
  unfold get_instance_ip, scw, run, bind. cbn. rewrite Hcode. reflexivity.
Qed.

(** A remote command that exits with an error counts as a shell not yet
    reachable: the loop sleeps and tries again. *)
Lemma wait_for_ssh_retries_on_error (env : environment) (fuel : nat)
    (ip : json) (w : world) :
  returncode (respond env (calls w) (Ssh ip EchoOk)) <> 0 ->
  wait_for_ssh_loop env (S fuel) ip w =
    wait_for_ssh_loop env fuel ip
      (record_event (Sleep 5)
         (record_event (PrintedInline [Lit "."])
            (count_call (record_event (Run (Ssh ip EchoOk)) w)))).
Proof.
  intros Hcode. apply Z.eqb_neq in Hcode.
  cbn [wait_for_ssh_loop]. unfold bind at 1.
  unfold ssh_run, run, bind. cbn. rewrite Hcode. reflexivity.
Qed.

(** X13: a query of the power state whose output [json.loads] rejects
    ends the loop with the exception of [json.loads], after that one
    query and without a sleep: the exit code of the query is not looked
    at, and nothing catches the exception. *)
Theorem wait_for_running_raises (env : environment) (fuel : nat)
    (id : pystr) (w : world) (e : exn) :
  json_loads (stdout (respond env (calls w) (ScwGet (JStr id)))) = Exc e ->
  wait_for_running_loop env (S fuel) (JStr id) w =
    (Raise e, count_call (record_event (Run (ScwGet (JStr id))) w)).
Proof.
  intros Hloads. cbn [wait_for_running_loop]. unfold bind.
  rewrite get_instance_state_run. unfold reported_state. rewrite Hloads.
  reflexivity.
Qed.

Lemma wait_for_running_raises_witness :
  wait_for_running_loop failing_get (S 2) (JStr (py "i-1")) fresh =
    (Raise JSONDecodeError,
     count_call (record_event (Run (ScwGet (JStr (py "i-1")))) fresh)).
Proof.
  apply (wait_for_running_raises failing_get 2 (py "i-1") fresh JSONDecodeError).
  vm_compute. reflexivity.
Defined.

(** C5: a provider that answers the power-state query with exit code 1
    and an empty output makes [wait_for_running] die of
    [JSONDecodeError] at the first query, without sleep or retry; the
    same failure of the address query and of the remote command makes
    [wait_for_ip] and [wait_for_ssh] sleep and ask again. *)
Theorem transport_error_in_polls :
  (let run := wait_for_running failing_get 3 (JStr (py "i-1")) fresh in
   fst run = Raise JSONDecodeError /\
   events (snd run) =
     [PrintedInline [Lit "Waiting for instance to start"];
      Run (ScwGet (JStr (py "i-1")))])
  /\
  (let run := wait_for_ip unreachable 2 (JStr (py "i-1")) fresh in
   fst run = Waiting /\
   events (snd run) =
     [PrintedInline [Lit "Waiting for IP assignment"];
      Run ScwIpList; PrintedInline [Lit "."]; Sleep 5;
      Run ScwIpList; PrintedInline [Lit "."]; Sleep 5])
  /\
  (let run := wait_for_ssh unreachable 2 (JStr (py "10.0.0.5")) fresh in
   fst run = Waiting /\
   events (snd run) =
     [PrintedInline [Lit "Waiting for SSH"];
      Run (Ssh (JStr (py "10.0.0.5")) EchoOk); PrintedInline [Lit "."]; Sleep 5;
      Run (Ssh (JStr (py "10.0.0.5")) EchoOk); PrintedInline [Lit "."]; Sleep 5]).
Proof. repeat split; vm_compute; reflexivity. Qed.

(** ** The token of the notebook *)

Lemma str_in_cons (sub : pystr) (c : Z) (s : pystr) :
  str_in sub (c :: s) = startswith sub (c :: s) || str_in sub s.
Proof. reflexivity. Qed.

Lemma search_token_none (s : pystr) :
  str_in (py "token=") s = false -> search_token s = None.
Proof.
  induction s as [|c s IH]; intros H.
  - reflexivity.
  - rewrite str_in_cons in H. apply orb_false_iff in H as [Hhere Hrest].
    cbn [search_token]. unfold match_token.
    unfold startswith in Hhere.
    destruct (strip_prefix (py "token=") (c :: s)); [discriminate|].
    apply IH, Hrest.
Qed.

Lemma search_token_skip (pre rest : pystr) :
  (forall i, (i < List.length pre)%nat -> match_token (skipn i (pre ++ rest)) = None) ->
  search_token (pre ++ rest) = search_token rest.
Proof.
  induction pre as [|c pre IH]; intros H.
  - reflexivity.
  - cbn [app search_token].
    pose proof (H 0%nat ltac:(cbn; lia)) as H0. cbn [skipn app] in H0.
    rewrite H0. apply IH.
    intros i Hi. apply (H (S i)). cbn. lia.
Qed.

Lemma strip_prefix_app (p r : pystr) : strip_prefix p (p ++ r) = Some r.
Proof.
  induction p as [|c p IH]; [reflexivity|].
  cbn [app strip_prefix]. rewrite Z.eqb_refl. exact IH.
Qed.

Lemma take_token_app (cs post : pystr) :
  forallb token_char cs = true ->
  take_token (cs ++ post) = cs ++ take_token post.
Proof.
  induction cs as [|c cs IH]; intros H; [reflexivity|].
  cbn [forallb] in H. apply andb_true_iff in H as [Hc Hcs].
  cbn [app take_token]. rewrite Hc, (IH Hcs). reflexivity.
Qed.

Lemma match_token_target (post : pystr) :
  post = [] \/ (exists c r, post = c :: r /\ token_char c = false) ->
  match_token (py "token=abc123XYZ_-" ++ post) = Some (py "abc123XYZ_-").
Proof.
  intros Hpost. unfold match_token.
  replace (py "token=abc123XYZ_-" ++ post)
    with (py "token=" ++ (py "abc123XYZ_-" ++ post)) by reflexivity.
  rewrite strip_prefix_app, take_token_app by reflexivity.
  replace (take_token post) with (@nil Z).
  - reflexivity.
  - destruct Hpost as [-> | (c & r & -> & Hc)]; [reflexivity|].
    cbn [take_token]. rewrite Hc. reflexivity.
Qed.

(** C7, as the code has it: the token is the one of the first match.  An
    output in which [token=abc123XYZ_-] is followed by a character
    outside the class, or by nothing, and in which no earlier position
    starts a match of the pattern, gives [abc123XYZ_-]; an output
    without [token=] gives the empty string. *)
Theorem extract_first_token (pre post s : pystr) :
  (forall i, (i < List.length pre)%nat ->
     match_token (skipn i (pre ++ py "token=abc123XYZ_-" ++ post)) = None) ->
  post = [] \/ (exists c r, post = c :: r /\ token_char c = false) ->
  str_in (py "token=") s = false ->
  extract_jupyter_token (pre ++ py "token=abc123XYZ_-" ++ post) = py "abc123XYZ_-"
  /\ extract_jupyter_token s = [].
Proof.
  intros Hpre Hpost Hs. split.
  - unfold extract_jupyter_token. rewrite (search_token_skip _ _ Hpre).
    pose proof (match_token_target post Hpost) as Hm.
    destruct (py "token=abc123XYZ_-" ++ post) eqn:E; cbn [search_token];
      rewrite Hm; reflexivity.
  - unfold extract_jupyter_token. rewrite (search_token_none _ Hs). reflexivity.
Qed.

Lemma extract_first_token_witness :
  extract_jupyter_token
    (py "http://host:8888/?" ++ py "token=abc123XYZ_-" ++ py " ready")
  = py "abc123XYZ_-"
  /\ extract_jupyter_token (py "no such thing") = [].
Proof.
  apply (extract_first_token (py "http://host:8888/?") (py " ready") (py "no such thing")).
  - intros i Hi.
    do 18 (destruct i as [|i]; [reflexivity|]).
    exfalso. change (List.length (py "http://host:8888/?")) with 18%nat in Hi. lia.
  - right. exists 32, (py "ready"). split; reflexivity.
  - reflexivity.
Defined.

(** C7, as stated, fails when an earlier match precedes the token. *)
Lemma extract_token_counterexample :
  ~ (forall pre post : pystr,
       post = [] \/ (exists c r, post = c :: r /\ token_char c = false) ->
       extract_jupyter_token (pre ++ py "token=abc123XYZ_-" ++ post)
       = py "abc123XYZ_-").
Proof.
  intros H.
  specialize (H (py "token=old ") [] (or_introl eq_refl)).
  vm_compute in H. discriminate H.
Qed.

(** ** The persisted state *)

(** *** Bits and digits *)

Lemma lor_disjoint (a b k : Z) :
  0 <= k -> 0 <= b < 2 ^ k -> Z.lor (a * 2 ^ k) b = a * 2 ^ k + b.
Proof.
  intros Hk Hb.
  assert (Hland : Z.land (a * 2 ^ k) b = 0).
  { rewrite <- (Z.mod_small b (2 ^ k)) by lia.
    rewrite <- Z.land_ones by lia.
    rewrite (Z.land_comm b), Z.land_assoc, Z.land_ones by lia.
    rewrite Z.mod_mul by lia. apply Z.land_0_l. }
  pose proof (Z.add_lor_land (a * 2 ^ k) b) as H. lia.
Qed.

Lemma land_low (n k : Z) : 0 <= k -> Z.land n (2 ^ k - 1) = n mod 2 ^ k.
Proof.
  intros Hk. rewrite <- Z.land_ones by lia.
  f_equal. rewrite Z.ones_equiv. lia.
Qed.

(** The digit [k] of [n] in base 16. *)
Lemma nibble (n k : Z) :
  0 <= k -> Z.land (Z.shiftr n k) 15 = (n / 2 ^ k) mod 16.
Proof.
  intros Hk. rewrite Z.shiftr_div_pow2 by lia.
  change 15 with (2 ^ 4 - 1). rewrite land_low by lia. reflexivity.
Qed.

Lemma hex_value_digit (d : Z) :
  0 <= d < 16 -> hex_value (hex_digit d) = Some d.
Proof.
  intros Hd. unfold hex_digit, hex_value.
  destruct (Z.ltb_spec d 10).
  - replace ((48 <=? 48 + d) && (48 + d <=? 57)) with true
      by (symmetry; apply andb_true_iff; split; apply Z.leb_le; lia).
    f_equal. lia.
  - replace ((48 <=? 87 + d) && (87 + d <=? 57)) with false
      by (symmetry; apply andb_false_iff; right; apply Z.leb_gt; lia).
    replace ((97 <=? 87 + d) && (87 + d <=? 102)) with true
      by (symmetry; apply andb_true_iff; split; apply Z.leb_le; lia).
    f_equal. lia.
Qed.

(** The four digits [escape_u] prints are read back by [decode_uXXXX]. *)
Lemma decode_escape_u (n : Z) (r : pystr) :
  0 <= n < 0x10000 ->
  exists digits, escape_u n = 92 :: 117 :: digits /\
                 decode_uXXXX (digits ++ r) = Some (n, r).
Proof.
  intros Hn. unfold escape_u. eexists. split; [reflexivity|].
  cbn [app decode_uXXXX].
  rewrite !nibble by lia.
  change (Z.land n 15) with (Z.land n (2 ^ 4 - 1)). rewrite land_low by lia.
  change (2 ^ 12) with 4096. change (2 ^ 8) with 256. change (2 ^ 4) with 16.
  rewrite !hex_value_digit by (apply Z.mod_pos_bound; lia).
  rewrite !Z.shiftl_mul_pow2 by lia.
  rewrite !lor_disjoint by
    (try lia; change (2 ^ 4) with 16; apply Z.mod_pos_bound; lia).
  do 2 f_equal. change (2 ^ 4) with 16.
  Z.to_euclidean_division_equations. lia.
Qed.

(** *** Surrogates *)

Lemma surrogates_of (c : Z) :
  0x10000 <= c < 0x110000 ->
  let n := c - 0x10000 in
  Z.lor 0xd800 (Z.land (Z.shiftr n 10) 0x3ff) = 0xd800 + n / 1024 /\
  Z.lor 0xdc00 (Z.land n 0x3ff) = 0xdc00 + n mod 1024.
Proof.
  intros Hc n.
  assert (Hn : 0 <= n < 1024 * 1024) by (subst n; lia).
  change 0x3ff with (2 ^ 10 - 1). rewrite !land_low by lia.
  rewrite Z.shiftr_div_pow2 by lia. change (2 ^ 10) with 1024.
  rewrite (Z.mod_small (n / 1024)) by
    (split; [apply Z.div_pos; lia | apply Z.div_lt_upper_bound; lia]).
  change 0xd800 with (54 * 2 ^ 10). change 0xdc00 with (55 * 2 ^ 10).
  split; apply lor_disjoint; try lia; change (2 ^ 10) with 1024.
  - split; [apply Z.div_pos; lia | apply Z.div_lt_upper_bound; lia].
  - apply Z.mod_pos_bound. lia.
Qed.

Lemma join_surrogates_of (c : Z) :
  0x10000 <= c < 0x110000 ->
  let n := c - 0x10000 in
  join_surrogates (0xd800 + n / 1024) (0xdc00 + n mod 1024) = c.
Proof.
  intros Hc n. unfold join_surrogates.
  replace (0xd800 + n / 1024 - 0xd800) with (n / 1024) by lia.
  replace (0xdc00 + n mod 1024 - 0xdc00) with (n mod 1024) by lia.
  rewrite Z.shiftl_mul_pow2 by lia.
  rewrite lor_disjoint by
    (try lia; change (2 ^ 10) with 1024; apply Z.mod_pos_bound; lia).
  change (2 ^ 10) with 1024. subst n.
  Z.to_euclidean_division_equations. lia.
Qed.

(** *** Reading back an escaped string *)

Ltac decide_tests :=
  repeat match goal with
         | |- context [?a =? ?b] =>
             destruct (Z.eqb_spec a b); [try (exfalso; lia) | try (exfalso; lia)]
         | |- context [?a <? ?b] =>
             destruct (Z.ltb_spec a b); [try (exfalso; lia) | try (exfalso; lia)]
         | |- context [?a <=? ?b] =>
             destruct (Z.leb_spec a b); [try (exfalso; lia) | try (exfalso; lia)]
         end.

(** One character: what [escape_char] wrote for [c] is read as [c],
    provided a high surrogate [c] is not joined with what follows. *)
Lemma scan_escape_char (c : Z) (rest : pystr) (fuel : nat) :
  code_point c ->
  surrogate_pair c rest = Val (c, rest) ->
  scanstring_from (S fuel) (escape_char c ++ rest) =
    (let? '(str, r) := scanstring_from fuel rest in Val (c :: str, r)).
Proof.
  intros Hc Hpair. unfold code_point in Hc. unfold escape_char.
  destruct (Z.eqb_spec c 92) as [->|H92]; [reflexivity|].
  destruct (Z.eqb_spec c 34) as [->|H34]; [reflexivity|].
  destruct (Z.eqb_spec c 8) as [->|H8]; [reflexivity|].
  destruct (Z.eqb_spec c 12) as [->|H12]; [reflexivity|].
  destruct (Z.eqb_spec c 10) as [->|H10]; [reflexivity|].
  destruct (Z.eqb_spec c 13) as [->|H13]; [reflexivity|].
  destruct (Z.eqb_spec c 9) as [->|H9]; [reflexivity|].
  destruct ((32 <=? c) && (c <=? 126)) eqn:Hprint.
  - apply andb_true_iff in Hprint as [Hlo Hhi].
    apply Z.leb_le in Hlo. apply Z.leb_le in Hhi.
    cbn [app scanstring_from].
    decide_tests. reflexivity.
  - destruct (Z.ltb_spec c 0x10000) as [Hbmp|Hastral].
    + destruct (decode_escape_u c rest ltac:(lia)) as (digits & -> & Hdec).
      cbn [app scanstring_from]. cbn [Z.eqb Pos.eqb].
      rewrite Hdec. cbn [rbind]. rewrite Hpair. reflexivity.
    + destruct (surrogates_of c ltac:(lia)) as [Hs1 Hs2]. cbv zeta in Hs1, Hs2.
      rewrite Hs1, Hs2.
      pose proof (join_surrogates_of c ltac:(lia)) as Hjoin. cbv zeta in Hjoin.
      set (n := c - 0x10000) in *.
      assert (Hq : 0 <= n / 1024 < 1024)
        by (subst n; split; [apply Z.div_pos; lia | apply Z.div_lt_upper_bound; lia]).
      assert (Hr : 0 <= n mod 1024 < 1024) by (apply Z.mod_pos_bound; lia).
      rewrite <- app_assoc.
      destruct (decode_escape_u (0xd800 + n / 1024)
                  (escape_u (0xdc00 + n mod 1024) ++ rest) ltac:(lia))
        as (d1 & -> & Hdec1).
      destruct (decode_escape_u (0xdc00 + n mod 1024) rest ltac:(lia))
        as (d2 & E2 & Hdec2).
      cbn [app scanstring_from]. cbn [Z.eqb Pos.eqb].
      rewrite Hdec1. cbn [rbind].
      unfold surrogate_pair.
      replace (is_high_surrogate (0xd800 + n / 1024)) with true
        by (symmetry; apply andb_true_iff; split; apply Z.leb_le; lia).
      rewrite E2. cbn [app strip_prefix Z.eqb Pos.eqb].
      rewrite Hdec2.
      replace (is_low_surrogate (0xdc00 + n mod 1024)) with true
        by (symmetry; apply andb_true_iff; split; apply Z.leb_le; lia).
      rewrite Hjoin. reflexivity.
Qed.

(** A high surrogate stays alone when the next character of the string
    is not a low surrogate. *)
Lemma surrogate_pair_alone (c : Z) (t rest : pystr) :
  wf_str t ->
  match t with
  | d :: _ => is_high_surrogate c && is_low_surrogate d = false
  | [] => True
  end ->
  surrogate_pair c (escape_str t ++ 34 :: rest) =
    Val (c, escape_str t ++ 34 :: rest).
Proof.
  intros Hwf Hnext. unfold surrogate_pair.
  destruct (is_high_surrogate c) eqn:Hhigh; [|reflexivity].
  destruct t as [|d t]; [reflexivity|].
  cbn [andb] in Hnext.
  inversion Hwf as [|? ? Hd _]; subst. unfold code_point in Hd.
  unfold escape_str. cbn [flat_map]. rewrite <- app_assoc.
  set (tail := flat_map escape_char t ++ 34 :: rest).
  unfold escape_char.
  destruct (Z.eqb_spec d 92) as [->|H92]; [reflexivity|].
  destruct (Z.eqb_spec d 34) as [->|H34]; [reflexivity|].
  destruct (Z.eqb_spec d 8) as [->|H8]; [reflexivity|].
  destruct (Z.eqb_spec d 12) as [->|H12]; [reflexivity|].
  destruct (Z.eqb_spec d 10) as [->|H10]; [reflexivity|].
  destruct (Z.eqb_spec d 13) as [->|H13]; [reflexivity|].
  destruct (Z.eqb_spec d 9) as [->|H9]; [reflexivity|].
  destruct ((32 <=? d) && (d <=? 126)) eqn:Hprint.
  - cbn [app strip_prefix].
    destruct (Z.eqb_spec 92 d); [congruence | reflexivity].
  - destruct (Z.ltb_spec d 0x10000) as [Hbmp|Hastral].
    + destruct (decode_escape_u d tail ltac:(lia)) as (digits & E & Hdec).
      rewrite E. cbn [app strip_prefix Z.eqb Pos.eqb].
      rewrite Hdec, Hnext. reflexivity.
    + destruct (surrogates_of d ltac:(lia)) as [Hs1 Hs2]. cbv zeta in Hs1, Hs2.
      rewrite Hs1, Hs2.
      set (n := d - 0x10000) in *.
      assert (Hq : 0 <= n / 1024 < 1024)
        by (subst n; split; [apply Z.div_pos; lia | apply Z.div_lt_upper_bound; lia]).
      rewrite <- app_assoc.
      destruct (decode_escape_u (0xd800 + n / 1024)
                  (escape_u (0xdc00 + n mod 1024) ++ tail) ltac:(lia))
        as (d1 & E & Hdec1).
      rewrite E. cbn [app strip_prefix Z.eqb Pos.eqb].
      rewrite Hdec1.
      replace (is_low_surrogate (0xd800 + n / 1024)) with false
        by (symmetry; apply andb_false_iff; left; apply Z.leb_gt; lia).
      reflexivity.
Qed.

Lemma escape_str_cons (c : Z) (t : pystr) :
  escape_str (c :: t) = escape_char c ++ escape_str t.
Proof. reflexivity. Qed.

Lemma escape_char_length (c : Z) : (1 <= List.length (escape_char c))%nat.
Proof.
  unfold escape_char, escape_u.
  repeat match goal with
         | |- context [if ?b then _ else _] => destruct b
         end; cbn; lia.
Qed.

Lemma escape_str_length (s : pystr) :
  (List.length s <= List.length (escape_str s))%nat.
Proof.
  induction s as [|c s IH]; [cbn; lia|].
  rewrite escape_str_cons, length_app. pose proof (escape_char_length c).
  cbn [List.length]. lia.
Qed.

(** What [json.dumps] wrote between the quotes is read back as the
    string it was given, when no surrogates meet in that string. *)
Lemma scanstring_escape_str (s : pystr) :
  forall (rest : pystr) (fuel : nat),
    wf_str s -> no_surrogate_pair s ->
    (List.length s < fuel)%nat ->
    scanstring_from fuel (escape_str s ++ 34 :: rest) = Val (s, rest).
Proof.
  induction s as [|c t IH]; intros rest fuel Hwf Hpairs Hfuel.
  - destruct fuel as [|fuel]; [cbn in Hfuel; lia|]. reflexivity.
  - destruct fuel as [|fuel]; [cbn in Hfuel; lia|].
    inversion Hwf as [|? ? Hc Ht]; subst.
    cbn [no_surrogate_pair] in Hpairs. destruct Hpairs as [Hnext Hrest].
    rewrite escape_str_cons, <- app_assoc.
    rewrite scan_escape_char.
    + rewrite IH by (auto; cbn [List.length] in Hfuel; lia). reflexivity.
    + exact Hc.
    + apply surrogate_pair_alone; assumption.
Qed.

Lemma scanstring_encoded (s rest : pystr) :
  wf_str s -> no_surrogate_pair s ->
  scanstring (escape_str s ++ 34 :: rest) = Val (s, rest).
Proof.
  intros Hwf Hpairs. unfold scanstring.
  apply scanstring_escape_str; auto.
  rewrite length_app. pose proof (escape_str_length s). cbn [List.length]. lia.
Qed.

(** *** Reading back the record *)

Lemma record_text_eq (id ip : pystr) :
  record_text (JStr id) (JStr ip) =
    [123; 34] ++ escape_str (py "id") ++ [34; 58; 32; 34] ++ escape_str id ++
    [34; 44; 32; 34] ++ escape_str (py "ip") ++ [34; 58; 32; 34] ++
    escape_str ip ++ [34; 125].
Proof.
  unfold record_text.
  cbv [json_dumps map join encode_basestring_ascii fst snd].
  change (py ": ") with [58; 32]. change (py ", ") with [44; 32].
  cbn [app]. repeat (rewrite <- app_assoc; cbn [app]).
  reflexivity.
Qed.

Lemma scan_once_string (depth : nat) (s rest : pystr) :
  wf_str s -> no_surrogate_pair s ->
  scan_once (S depth) (34 :: escape_str s ++ 34 :: rest) = Val (JStr s, rest).
Proof.
  intros Hwf Hpairs. cbn [scan_once Z.eqb Pos.eqb].
  rewrite scanstring_encoded by assumption. reflexivity.
Qed.

Section Members.

Variable scan : pystr -> result (json * pystr).
Hypothesis scan_string :
  forall s rest, wf_str s -> no_surrogate_pair s ->
    scan (34 :: escape_str s ++ 34 :: rest) = Val (JStr s, rest).

(** A member whose key and value are strings, followed by a comma and
    the quote of the next key. *)
Lemma object_members_more (n : nat) (k v rest : pystr)
    (pairs : list (pystr * json)) :
  wf_str k -> no_surrogate_pair k -> wf_str v -> no_surrogate_pair v ->
  object_members scan (S n)
    (escape_str k ++ 34 :: 58 :: 32 :: 34 :: escape_str v ++
     34 :: 44 :: 32 :: 34 :: rest)
    pairs
  = object_members scan n rest (pairs ++ [(k, JStr v)]).
Proof.
  intros Hk Hk' Hv Hv'. cbn [object_members app].
  rewrite scanstring_encoded by assumption.
  cbn [rbind skip_ws is_ws orb Z.eqb Pos.eqb].
  rewrite scan_string by assumption.
  cbn [rbind skip_ws is_ws orb Z.eqb Pos.eqb]. reflexivity.
Qed.

(** The last member, followed by the closing brace. *)
Lemma object_members_last (n : nat) (k v rest : pystr)
    (pairs : list (pystr * json)) :
  wf_str k -> no_surrogate_pair k -> wf_str v -> no_surrogate_pair v ->
  object_members scan (S n)
    (escape_str k ++ 34 :: 58 :: 32 :: 34 :: escape_str v ++ 34 :: 125 :: rest)
    pairs
  = Val (JObj (dict_of_pairs (pairs ++ [(k, JStr v)])), rest).
Proof.
  intros Hk Hk' Hv Hv'. cbn [object_members app].
  rewrite scanstring_encoded by assumption.
  cbn [rbind skip_ws is_ws orb Z.eqb Pos.eqb].
  rewrite scan_string by assumption.
  cbn [rbind skip_ws is_ws orb Z.eqb Pos.eqb]. reflexivity.
Qed.

End Members.

Ltac plain_string :=
  split;
  [ repeat (apply Forall_cons; [unfold code_point; lia|]); apply Forall_nil
  | cbn; repeat split; reflexivity ].

Lemma wf_py_id : wf_str (py "id") /\ no_surrogate_pair (py "id").
Proof. change (py "id") with [105; 100]. plain_string. Qed.

Lemma wf_py_ip : wf_str (py "ip") /\ no_surrogate_pair (py "ip").
Proof. change (py "ip") with [105; 112]. plain_string. Qed.

(** The text [save_state] writes is read back by [json.loads] as the
    dictionary it was made from. *)
Lemma loads_record_text (id ip : pystr) :
  wf_str id -> wf_str ip -> no_surrogate_pair id -> no_surrogate_pair ip ->
  json_loads (record_text (JStr id) (JStr ip)) =
    Val (JObj [(py "id", JStr id); (py "ip", JStr ip)]).
Proof.
  intros Hid Hip Nid Nip.
  destruct wf_py_id as [Wi Ni]. destruct wf_py_ip as [Wa Na].
  rewrite record_text_eq. unfold json_loads.
  cbn [app startswith strip_prefix Z.eqb Pos.eqb skip_ws is_ws orb].
  set (text := 123 :: _).
  assert (Hdepth : exists d, List.length text = S d) by (eexists; reflexivity).
  destruct Hdepth as [d ->]. subst text.
  change (scan_once (S (S d)) (123 :: ?r)) with (JSONObject (scan_once (S d)) r).
  unfold JSONObject. cbn [skip_ws is_ws orb Z.eqb Pos.eqb].
  match goal with
  | |- context [object_members _ (List.length ?r) _ _] =>
      assert (Hn : exists n, List.length r = S (S n))
  end.
  { change (escape_str (py "id")) with [105; 100]. eexists. reflexivity. }
  destruct Hn as [n ->].
  rewrite (object_members_more (scan_once (S d)) (scan_once_string d))
    by assumption.
  rewrite (object_members_last (scan_once (S d)) (scan_once_string d))
    by assumption.
  reflexivity.
Qed.

(** C9: for an identifier and an address in which no high surrogate
    stands directly before a low surrogate, [load_state] after
    [save_state] returns the dictionary with that identifier and that
    address, which [record_of] reads as the record; and [load_state]
    after [delete_state] returns [None], from every state. *)
Theorem state_round_trip (w : world) (id ip : pystr) :
  wf_str id -> wf_str ip ->
  no_surrogate_pair id -> no_surrogate_pair ip ->
  (let saved := snd (save_state (JStr id) (JStr ip) w) in
   load_state saved =
     (Ret (JObj [(py "id", JStr id); (py "ip", JStr ip)]), saved) /\
   record_of saved = Some (id, ip))
  /\
  (let cleared := snd (delete_state w) in
   load_state cleared = (Ret JNull, cleared)).
Proof.
  intros Hid Hip Nid Nip. split; [|reflexivity].
  pose proof (loads_record_text id ip Hid Hip Nid Nip) as Hloads.
  unfold record_text in Hloads.
  cbv zeta. unfold save_state, load_state, record_of, lift.
  cbn [snd state_file set_state_file]. rewrite Hloads.
  split; reflexivity.
Qed.

Lemma state_round_trip_witness :
  (let saved := snd (save_state (JStr (py "i-1")) (JStr (py "10.0.0.5")) fresh) in
   load_state saved =
     (Ret (JObj [(py "id", JStr (py "i-1")); (py "ip", JStr (py "10.0.0.5"))]),
      saved) /\
   record_of saved = Some (py "i-1", py "10.0.0.5"))
  /\
  (let cleared := snd (delete_state fresh) in
   load_state cleared = (Ret JNull, cleared)).
Proof.
  apply (state_round_trip fresh (py "i-1") (py "10.0.0.5")).
  - change (py "i-1") with [105; 45; 49].
    repeat (apply Forall_cons; [unfold code_point; lia|]); apply Forall_nil.
  - change (py "10.0.0.5") with [49; 48; 46; 48; 46; 48; 46; 53].
    repeat (apply Forall_cons; [unfold code_point; lia|]); apply Forall_nil.
  - cbn. repeat split; reflexivity.
  - cbn. repeat split; reflexivity.
Defined.

(** The two surrogates U+D83D U+DE00, saved as an identifier, come back
    as the single code point U+1F600. *)
Lemma surrogates_join_on_reload :
  fst (load_state (snd (save_state (JStr [0xd83d; 0xde00]) (JStr (py "10.0.0.5")) fresh)))
  = Ret (JObj [(py "id", JStr [0x1f600]); (py "ip", JStr (py "10.0.0.5"))]).
Proof. vm_compute. reflexivity. Qed.

(** The round trip does not hold for every string: it fails on such an
    identifier. *)
Lemma state_round_trip_counterexample :
  ~ (forall (w : world) (id ip : pystr),
       wf_str id -> wf_str ip ->
       exists d,
         fst (load_state (snd (save_state (JStr id) (JStr ip) w))) = Ret (JObj d) /\
         dict_lookup d (py "id") = Some (JStr id) /\
         dict_lookup d (py "ip") = Some (JStr ip)).
Proof.
  intros H.
  destruct (H fresh [0xd83d; 0xde00] (py "10.0.0.5")) as (d & Hload & Hid & _).
  - repeat (apply Forall_cons; [unfold code_point; lia|]); apply Forall_nil.
  - change (py "10.0.0.5") with [49; 48; 46; 48; 46; 48; 46; 53].
    repeat (apply Forall_cons; [unfold code_point; lia|]); apply Forall_nil.
  - rewrite surrogates_join_on_reload in Hload. injection Hload as <-.
    vm_compute in Hid. discriminate Hid.
Qed.

(** ** Where [start] writes the record *)

Section Frames.

Variable P : command -> Prop.

Lemma extends_refl (w : world) : extends P w w.
Proof.
  split; [reflexivity|]. split; [lia|].
  exists []. rewrite app_nil_r. split; [reflexivity|constructor].
Qed.

Lemma extends_trans (w1 w2 w3 : world) :
  extends P w1 w2 -> extends P w2 w3 -> extends P w1 w3.
Proof.
  intros (Hf1 & Hc1 & l1 & Hl1 & HP1) (Hf2 & Hc2 & l2 & Hl2 & HP2).
  split; [congruence|]. split; [lia|].
  exists (l1 ++ l2). split.
  - rewrite Hl2, Hl1, app_assoc. reflexivity.
  - apply Forall_app. split; [exact HP1|]. rewrite <- Hf1. exact HP2.
Qed.

Lemma keeps_ret {A} (a : A) : keeps P (ret a).
Proof. intros w. apply extends_refl. Qed.

Lemma keeps_exit {A} (n : Z) : keeps P (@sys_exit A n).
Proof. intros w. apply extends_refl. Qed.

Lemma keeps_lift {A} (r : result A) : keeps P (lift r).
Proof. intros w. destruct r; apply extends_refl. Qed.

Lemma keeps_stuck {A} (o : outcome A) : keeps P (fun w => (o, w)).
Proof. intros w. apply extends_refl. Qed.

Lemma keeps_bind {A B} (m : M A) (k : A -> M B) :
  keeps P m -> (forall a, keeps P (k a)) -> keeps P (bind m k).
Proof.
  intros Hm Hk w. unfold bind. specialize (Hm w).
  destruct (m w) as [[a| | | |] w1]; cbn [snd] in *; try exact Hm.
  eapply extends_trans; [exact Hm | apply Hk].
Qed.

Lemma extends_event (e : event) (w : world) :
  match e with Run c => P c | _ => True end ->
  extends P w (record_event e w).
Proof.
  intros He. split; [reflexivity|]. split; [cbn; lia|].
  exists [(state_file w, e)]. split; [reflexivity|].
  constructor; [split; [reflexivity | exact He] | constructor].
Qed.

Lemma keeps_print (l : list piece) : keeps P (print l).
Proof. intros w. apply extends_event. exact I. Qed.

Lemma keeps_print_inline (l : list piece) : keeps P (print_inline l).
Proof. intros w. apply extends_event. exact I. Qed.

Lemma keeps_sleep (n : Z) : keeps P (sleep n).
Proof. intros w. apply extends_event. exact I. Qed.

Lemma extends_count_call (w w' : world) :
  extends P w w' -> extends P w (count_call w').
Proof.
  intros (Hf & Hc & H). split; [exact Hf|]. split; [cbn; lia | exact H].
Qed.

Lemma keeps_run (env : environment) (c : command) : P c -> keeps P (run env c).
Proof.
  intros Hc w. unfold run. destruct (forallb is_str (raw_args c)).
  - cbn [snd]. apply extends_count_call, extends_event. exact Hc.
  - apply extends_refl.
Qed.

Lemma keeps_if {A} (b : bool) (m1 m2 : M A) :
  keeps P m1 -> keeps P m2 -> keeps P (if b then m1 else m2).
Proof. destruct b; auto. Qed.

End Frames.

(** [frame] shows that a computation built from the steps above keeps
    [P]; the goals that remain say that a process is one of [P]. *)
Ltac frame :=
  repeat first
    [ apply keeps_bind; [|intros ?]
    | apply keeps_ret | apply keeps_exit | apply keeps_lift
    | apply keeps_print | apply keeps_print_inline | apply keeps_sleep
    | apply keeps_run
    | apply keeps_if ].

Lemma keeps_get_instance_state (env : environment) (id : json) :
  keeps provider_side (get_instance_state env id).
Proof. unfold get_instance_state, scw. frame. reflexivity. Qed.

Lemma keeps_get_instance_ip (env : environment) (id : json) :
  keeps provider_side (get_instance_ip env id).
Proof. unfold get_instance_ip, scw. frame. reflexivity. Qed.

Lemma keeps_wait_for_running (env : environment) (fuel : nat) (id : json) :
  keeps provider_side (wait_for_running env fuel id).
Proof.
  unfold wait_for_running. frame.
  induction fuel as [|fuel IH]; cbn [wait_for_running_loop].
  - apply keeps_stuck.
  - apply keeps_bind; [apply keeps_get_instance_state | intros state].
    frame. exact IH.
Qed.

Lemma keeps_wait_for_ip (env : environment) (fuel : nat) (id : json) :
  keeps provider_side (wait_for_ip env fuel id).
Proof.
  unfold wait_for_ip. frame.
  induction fuel as [|fuel IH]; cbn [wait_for_ip_loop].
  - apply keeps_stuck.
  - apply keeps_bind; [apply keeps_get_instance_ip | intros ip].
    frame. exact IH.
Qed.

Lemma keeps_remove_from_known_hosts (env : environment) (ip : json) :
  keeps provider_side (remove_from_known_hosts env ip).
Proof.
  intros w. unfold remove_from_known_hosts.
  destruct (known_hosts w).
  - revert w. frame. reflexivity.
  - apply extends_refl.
Qed.

Lemma keeps_wait_for_ssh (env : environment) (fuel : nat) (ip : json) :
  keeps remote_side (wait_for_ssh env fuel ip).
Proof.
  unfold wait_for_ssh. frame.
  induction fuel as [|fuel IH]; cbn [wait_for_ssh_loop].
  - apply keeps_stuck.
  - unfold ssh_run. frame; [reflexivity | exact IH].
Qed.

Lemma keeps_upload_work_dir (env : environment) (ip : json) :
  keeps remote_side (upload_work_dir env ip).
Proof.
  intros w. unfold upload_work_dir.
  destruct (work_dir w); cbn [negb].
  - revert w. unfold ssh_run, scp_to_instance. frame; reflexivity.
  - apply keeps_print.
Qed.

Lemma keeps_start_ssh_tunnel (env : environment) (ip : json) :
  keeps remote_side (start_ssh_tunnel env ip).
Proof.
  unfold start_ssh_tunnel. frame.
  intros w. destruct (interrupt env (calls w)).
  - eapply extends_trans; [|apply keeps_print].
    apply extends_count_call, extends_event. reflexivity.
  - cbn [snd]. apply extends_count_call, extends_event. reflexivity.
Qed.

Section Start.

Variable env : environment.
Variable w0 : world.

Lemma start_extends_of_extends (w w' : world) :
  state_file w = None ->
  extends provider_side w w' -> start_extends env w0 w w'.
Proof.
  intros Hnone (Hfile & _ & l & Hl & HP). exists l, [].
  rewrite app_nil_r. split; [exact Hl|].
  rewrite Hnone in HP, Hfile. split; [exact HP|].
  left. split; [exact Hfile | reflexivity].
Qed.

Lemma start_extends_trans (w w1 w2 : world) :
  state_file w = None ->
  extends provider_side w w1 -> start_extends env w0 w1 w2 ->
  start_extends env w0 w w2.
Proof.
  intros Hnone (_ & _ & l & Hl & HP) (l1 & l2 & Hl2 & HP1 & Hrest).
  rewrite Hnone in HP.
  exists (l ++ l1), l2. split; [|split].
  - rewrite Hl2, Hl, <- !app_assoc. reflexivity.
  - apply Forall_app. split; assumption.
  - exact Hrest.
Qed.

(** A step on the provider side, made before the record is written. *)
Lemma start_extends_bind {A B} (m : M A) (k : A -> M B) (w : world) :
  state_file w = None ->
  keeps provider_side m ->
  (forall a w1, m w = (Ret a, w1) -> state_file w1 = None ->
     (calls w <= calls w1)%nat ->
     start_extends env w0 w1 (snd (k a w1))) ->
  start_extends env w0 w (snd (bind m k w)).
Proof.
  intros Hnone Hm Hk. unfold bind. specialize (Hm w).
  destruct (m w) as [o w1] eqn:E. cbn [snd] in Hm.
  assert (Hnone1 : state_file w1 = None) by (destruct Hm as [-> _]; exact Hnone).
  assert (Hcalls : (calls w <= calls w1)%nat) by (destruct Hm as (_ & Hc & _); exact Hc).
  destruct o as [a| | | |]; cbn [snd];
    try (apply start_extends_of_extends; assumption).
  eapply start_extends_trans; [exact Hnone | exact Hm |].
  apply Hk; [reflexivity | exact Hnone1 | exact Hcalls].
Qed.

(** The write of the record, and the steps on the remote side after it. *)
Lemma start_extends_save {B} (id ip : json) (k : nat) (rest : M B) (w : world) :
  created_id env w0 = Val id ->
  address_at env id k ip ->
  (calls w0 < k < calls w)%nat ->
  keeps remote_side rest ->
  start_extends env w0 w (snd ((save_state id ip ;; rest) w)).
Proof.
  intros Hid Hip Hk Hrest.
  change (snd ((save_state id ip ;; rest) w))
    with (snd (rest (set_state_file (Some (record_text id ip)) w))).
  destruct (Hrest (set_state_file (Some (record_text id ip)) w))
    as (Hfile & Hcalls & l & Hl & HP).
  change (calls (set_state_file (Some (record_text id ip)) w))
    with (calls w) in Hcalls.
  exists [], l. split; [exact Hl|]. split; [constructor|].
  right. exists (record_text id ip). split; [|split; [exact Hfile | exact HP]].
  exists id, ip, k. repeat split; try assumption; try apply Hip; lia.
Qed.

End Start.

(** What [get_instance_ip] returns is what [listed_address] makes of
    the reply to the listing. *)
Lemma get_instance_ip_run (env : environment) (id : json) (w : world) :
  get_instance_ip env id w =
    lift (listed_address id (respond env (calls w) ScwIpList))
      (count_call (record_event (Run ScwIpList) w)).
Proof.
  unfold get_instance_ip, listed_address, scw, run, bind, lift, ret. cbn.
  destruct (negb _); [reflexivity|].
  destruct (json_loads _) as [ips| |]; reflexivity.
Qed.

(** The address [wait_for_ip] returns is the one of its last listing,
    and counts as true. *)
Lemma wait_for_ip_returns (env : environment) (fuel : nat) (id ip : json)
    (w w' : world) :
  wait_for_ip env fuel id w = (Ret ip, w') ->
  exists k, (calls w <= k < calls w')%nat /\ address_at env id k ip.
Proof.
  unfold wait_for_ip, bind at 1, print_inline, emit.
  change (calls w) with
    (calls (record_event (PrintedInline [Lit "Waiting for IP assignment"]) w)).
  generalize (record_event (PrintedInline [Lit "Waiting for IP assignment"]) w).
  clear w. induction fuel as [|fuel IH]; intros w; cbn [wait_for_ip_loop].
  - discriminate.
  - unfold bind at 1. rewrite get_instance_ip_run.
    destruct (listed_address id (respond env (calls w) ScwIpList))
      as [a| |] eqn:Hlisted; cbn [lift]; try discriminate.
    destruct (truthy a) eqn:Ha.
    + cbn. intros H. injection H as <- <-.
      exists (calls w). cbn. split; [lia|]. split; assumption.
    + unfold bind, print_inline, sleep, emit. intros H.
      destruct (IH _ H) as (k & Hk & Haddr). cbn in Hk.
      exists k. split; [lia | exact Haddr].
Qed.

Ltac frame_start :=
  repeat lazymatch goal with
    | |- keeps _ (bind _ _) => apply keeps_bind; [|intros ?]
    | |- keeps _ (wait_for_ssh _ _ _) => apply keeps_wait_for_ssh
    | |- keeps _ (upload_work_dir _ _) => apply keeps_upload_work_dir
    | |- keeps _ (start_ssh_tunnel _ _) => apply keeps_start_ssh_tunnel
    | |- keeps _ (print _) => apply keeps_print
    | |- keeps _ (sys_exit _) => apply keeps_exit
    | |- keeps _ (run _ _) => apply keeps_run; reflexivity
    | |- keeps _ (if _ then _ else _) => apply keeps_if
    | |- keeps _ (let _ := _ in _) => cbv zeta
    end.

Ltac by_frame :=
  match goal with
  | |- extends ?P ?w (snd (?m ?w)) =>
      let K := fresh "K" in
      assert (K : keeps P m) by frame; apply K
  end.

(** A [start] from a state without a state file, as a whole. *)
Lemma start_run (env : environment) (fuel : nat) (w : world) :
  state_file w = None ->
  start_extends env w w (snd (start env fuel w)).
Proof.
  intros Hnone. unfold start.
  unfold bind at 1, load_state. rewrite Hnone. cbn [truthy].
  apply start_extends_bind; [exact Hnone | apply keeps_print |].
  intros u1 w1 Hw1 Hnone1 Hc1. injection Hw1 as _ <-.
  apply start_extends_bind;
    [exact Hnone1 | apply keeps_run; reflexivity |].
  intros result w2 Hw2 Hnone2 Hc2. unfold scw, run in Hw2. cbn in Hw2.
  injection Hw2 as <- <-.
  destruct (negb (returncode _ =? 0)).
  { apply start_extends_of_extends; [exact Hnone2 | by_frame]. }
  apply start_extends_bind; [exact Hnone2 | apply keeps_lift |].
  intros data w3 Hw3 Hnone3 Hc3.
  apply start_extends_bind; [exact Hnone3 | apply keeps_lift |].
  intros id w4 Hw4 Hnone4 Hc4.
  assert (Hid : created_id env w = Val id).
  { unfold created_id. unfold lift in Hw3, Hw4. cbn [calls record_event] in Hw3.
    destruct (json_loads _) as [data'| |]; try discriminate Hw3.
    injection Hw3 as -> _. cbn [rbind].
    destruct (subscript data (py "id")); try discriminate Hw4.
    injection Hw4 as -> _. reflexivity. }
  apply start_extends_bind; [exact Hnone4 | apply keeps_print |].
  intros u5 w5 _ Hnone5 Hc5.
  apply start_extends_bind; [exact Hnone5 | apply keeps_wait_for_running |].
  intros u6 w6 _ Hnone6 Hc6.
  apply start_extends_bind; [exact Hnone6 | apply keeps_wait_for_ip |].
  intros ip w7 Hw7 Hnone7 Hc7.
  destruct (wait_for_ip_returns _ _ _ _ _ _ Hw7) as (k & Hk & Haddr).
  apply start_extends_bind;
    [exact Hnone7 | apply keeps_remove_from_known_hosts |].
  intros u8 w8 _ Hnone8 Hc8.
  cbn [calls count_call record_event] in Hc3.
  apply (start_extends_save env w id ip k); [exact Hid | exact Haddr | lia |].
  unfold ssh_run. frame_start.
  destruct (extract_jupyter_token _); apply keeps_print.
Qed.



(** X9: however a [start] from a state without a state file ends
    (returned, exited, died or still polling), it leaves one of two
    states: no state file, and then no remote command, copy or tunnel
    was run; or the state file with the record of the identifier the
    create call returned and of the address the provider listed for it
    in this run.  A set-up that fails after the record was written
    leaves the record in place. *)
Theorem start_leaves_record_or_nothing (env : environment) (fuel : nat)
    (w : world) :
  state_file w = None ->
  exists l,
    log (snd (start env fuel w)) = log w ++ l /\
    ((state_file (snd (start env fuel w)) = None /\
      forall s c, In (s, Run c) l -> remote_step c = false)
     \/
     (exists id ip k,
        created_id env w = Val id /\
        (calls w < k < calls (snd (start env fuel w)))%nat /\
        listed_address id (respond env k ScwIpList) = Val ip /\
        truthy ip = true /\
        state_file (snd (start env fuel w)) = Some (record_text id ip))).
Proof.
  intros Hnone.
  destruct (start_run env fuel w Hnone) as (l1 & l2 & Hl & HP1 & Hrest).
  exists (l1 ++ l2). split; [exact Hl|].
  destruct Hrest as [[Hfile ->] | (text & Hrec & Hfile & _)].
  - left. split; [exact Hfile|].
    intros s c Hin. rewrite app_nil_r in Hin. rewrite Forall_forall in HP1.
    destruct (HP1 _ Hin) as [_ Hc]. exact Hc.
  - right. destruct Hrec as (id & ip & k & Hid & Hk & [Hlisted Hip] & ->).
    exists id, ip, k. repeat split; try assumption; lia.
Qed.

Lemma start_leaves_record_or_nothing_witness :
  exists l,
    log (snd (start scenario 3 fresh)) = log fresh ++ l /\
    ((state_file (snd (start scenario 3 fresh)) = None /\
      forall s c, In (s, Run c) l -> remote_step c = false)
     \/
     (exists id ip k,
        created_id scenario fresh = Val id /\
        (calls fresh < k < calls (snd (start scenario 3 fresh)))%nat /\
        listed_address id (respond scenario k ScwIpList) = Val ip /\
        truthy ip = true /\
        state_file (snd (start scenario 3 fresh)) = Some (record_text id ip))).
Proof.
  apply (start_leaves_record_or_nothing scenario 3 fresh).
  reflexivity.
Defined.


(** ** Commands without an instance *)

(** [no_instance H Hv] replaces the load of the state, and the test on
    it, in a command that finds no instance. *)
Ltac no_instance Hload Hv :=
  unfold bind at 1; rewrite Hload; rewrite Hv; cbn [negb].

(** X1: when the state file is missing, or holds a JSON value that
    counts as false, [stop] prints that there is nothing to stop and
    exits with status 0: no process is started and the world is the one
    it found, with the printed line added. *)
Theorem stop_without_instance (env : environment) (w : world) (v : json) :
  load_state w = (Ret v, w) ->
  truthy v = false ->
  stop env w =
    (Exit 0, record_event (Printed [Lit "No instance found. Nothing to stop."]) w).
Proof.
  intros Hload Hv. unfold stop. no_instance Hload Hv. reflexivity.
Qed.

Lemma stop_without_instance_witness :
  stop quiet fresh =
    (Exit 0,
     record_event (Printed [Lit "No instance found. Nothing to stop."]) fresh).
Proof.
  apply (stop_without_instance quiet fresh JNull); reflexivity.
Defined.

(** X2: when the state file is missing, or holds a JSON value that
    counts as false, [upload] and [download] print the guidance and
    exit with status 1: no process is started, and [download] has not
    created the local work directory. *)
Theorem transfer_without_instance (env : environment) (w : world) (v : json)
    (filename : pystr) :
  load_state w = (Ret v, w) ->
  truthy v = false ->
  upload env filename w =
    (Exit 1,
     record_event (Printed [Lit "No running instance found. Run 'start' first."]) w)
  /\
  download env filename w =
    (Exit 1,
     record_event (Printed [Lit "No running instance found. Run 'start' first."]) w).
Proof.
  intros Hload Hv. split.
  - unfold upload. no_instance Hload Hv. reflexivity.
  - unfold download. no_instance Hload Hv. reflexivity.
Qed.

Lemma transfer_without_instance_witness :
  upload quiet (py "model.bin") fresh =
    (Exit 1,
     record_event (Printed [Lit "No running instance found. Run 'start' first."])
       fresh)
  /\
  download quiet (py "model.bin") fresh =
    (Exit 1,
     record_event (Printed [Lit "No running instance found. Run 'start' first."])
       fresh).
Proof.
  apply (transfer_without_instance quiet fresh JNull (py "model.bin")); reflexivity.
Defined.

(** X3: when the create call exits with an error, [start] prints the
    captured error and exits with status 1; the create call is the only
    process it started, and it wrote no state file. *)
Theorem start_create_fails (env : environment) (fuel : nat) (w : world)
    (v : json) :
  load_state w = (Ret v, w) ->
  truthy v = false ->
  returncode (respond env (calls w) ScwCreate) <> 0 ->
  exists w',
    start env fuel w = (Exit 1, w') /\
    state_file w' = state_file w /\
    processes w' = processes w ++ [ScwCreate] /\
    events w' =
      events w ++
      [Printed [Lit "Creating H100-1-80G instance..."];
       Run ScwCreate;
       Printed [Lit "Failed to create instance: ";
                Fmt (JStr (stderr (respond env (calls w) ScwCreate)))]].
Proof.
  intros Hload Hv Hcode. apply Z.eqb_neq in Hcode.
  unfold start. unfold bind at 1. rewrite Hload, Hv.
  unfold bind, print, emit, scw, run. cbn.
  rewrite Hcode. cbn.
  eexists. split; [reflexivity|]. split; [reflexivity|].
  split.
  - autorewrite with world. reflexivity.
  - unfold events. cbn. rewrite !map_app, <- !app_assoc. reflexivity.
Qed.

Lemma start_create_fails_witness :
  exists w',
    start unreachable 3 fresh = (Exit 1, w') /\
    state_file w' = state_file fresh /\
    processes w' = processes fresh ++ [ScwCreate] /\
    events w' =
      events fresh ++
      [Printed [Lit "Creating H100-1-80G instance..."];
       Run ScwCreate;
       Printed [Lit "Failed to create instance: ";
                Fmt (JStr (stderr (respond unreachable (calls fresh) ScwCreate)))]].
Proof.
  apply (start_create_fails unreachable 3 fresh JNull).
  - reflexivity.
  - reflexivity.
  - discriminate.
Defined.

(** X4: a state file that [json.loads] rejects makes each of the four
    commands die of the exception of [json.loads] at once: nothing is
    printed, no process is started, and the file stays as it is. *)
Theorem corrupt_state_stops_every_command (env : environment) (fuel : nat)
    (w : world) (text filename : pystr) (e : exn) :
  state_file w = Some text ->
  json_loads text = Exc e ->
  start env fuel w = (Raise e, w) /\
  stop env w = (Raise e, w) /\
  upload env filename w = (Raise e, w) /\
  download env filename w = (Raise e, w).
Proof.
  intros Hfile Hloads.
  assert (Hload : load_state w = (Raise e, w)).
  { unfold load_state. rewrite Hfile, Hloads. reflexivity. }
  unfold start, stop, upload, download.
  repeat split; unfold bind at 1; rewrite Hload; reflexivity.
Qed.

Lemma corrupt_state_stops_every_command_witness :
  let w := set_state_file (Some (py "i-1 10.0.0.5")) fresh in
  start quiet 3 w = (Raise JSONDecodeError, w) /\
  stop quiet w = (Raise JSONDecodeError, w) /\
  upload quiet (py "model.bin") w = (Raise JSONDecodeError, w) /\
  download quiet (py "model.bin") w = (Raise JSONDecodeError, w).
Proof.
  apply (corrupt_state_stops_every_command quiet 3
           (set_state_file (Some (py "i-1 10.0.0.5")) fresh)
           (py "i-1 10.0.0.5") (py "model.bin") JSONDecodeError).
  - reflexivity.
  - vm_compute. reflexivity.
Defined.

(** ** The command line *)

(** X5: without a command, or with a command other than [start],
    [stop], [upload] and [download], [main] prints the seven lines of
    the usage, which name the script and its four commands, and exits
    with status 1; it reads no state, starts no process and changes no
    file. *)
Theorem main_unknown_command (env : environment) (fuel : nat)
    (argv : list pystr) (w : world) :
  (List.length argv < 2)%nat \/
  existsb (str_eqb (nth 1 argv [])) commands = false ->
  exists w',
    main env fuel argv w = (Exit 1, w') /\
    events w' =
      events w ++
      [Printed [Lit "Usage: ./scw.py <command> [args]"];
       Printed [];
       Printed [Lit "Commands:"];
       Printed [Lit "  start            Create instance, upload ./work, install deps, start Jupyter, open tunnel"];
       Printed [Lit "  stop             Download /scratch/work, stop and delete instance (full cleanup)"];
       Printed [Lit "  upload <file>    Upload file from ./work/<file> to /scratch/work/<file>"];
       Printed [Lit "  download <file>  Download file from /scratch/work/<file> to ./work/<file>"]] /\
    processes w' = processes w /\
    calls w' = calls w /\
    state_file w' = state_file w /\
    work_path w' = work_path w.
Proof.
  intros Hargv.
  assert (Htest : Nat.ltb (List.length argv) 2
                  || negb (existsb (str_eqb (nth 1 argv [])) commands) = true).
  { destruct Hargv as [Hshort | Hunknown].
    - apply orb_true_iff. left. apply Nat.ltb_lt. exact Hshort.
    - rewrite Hunknown. apply orb_true_r. }
  unfold main. cbv zeta. rewrite Htest.
  unfold usage, bind, print, emit, sys_exit. cbn.
  eexists. split; [reflexivity|]. repeat split.
  - unfold events. cbn. rewrite !map_app, <- !app_assoc. reflexivity.
  - autorewrite with world. reflexivity.
Qed.

Lemma main_unknown_command_witness :
  exists w',
    main quiet 3 [py "./scw.py"; py "restart"] owned = (Exit 1, w') /\
    events w' =
      events owned ++
      [Printed [Lit "Usage: ./scw.py <command> [args]"];
       Printed [];
       Printed [Lit "Commands:"];
       Printed [Lit "  start            Create instance, upload ./work, install deps, start Jupyter, open tunnel"];
       Printed [Lit "  stop             Download /scratch/work, stop and delete instance (full cleanup)"];
       Printed [Lit "  upload <file>    Upload file from ./work/<file> to /scratch/work/<file>"];
       Printed [Lit "  download <file>  Download file from /scratch/work/<file> to ./work/<file>"]] /\
    processes w' = processes owned /\
    calls w' = calls owned /\
    state_file w' = state_file owned /\
    work_path w' = work_path owned.
Proof.
  apply (main_unknown_command quiet 3 [py "./scw.py"; py "restart"] owned).
  right. reflexivity.
Defined.

(** X6: [upload] and [download] want exactly one argument: with none,
    or with more than one, [main] prints the one line of the usage of
    that command and exits with status 1, before the state is read or a
    process is started. *)
Theorem main_transfer_arity (env : environment) (fuel : nat)
    (script : pystr) (args : list pystr) (w : world) :
  List.length args <> 1%nat ->
  main env fuel (script :: py "upload" :: args) w =
    (Exit 1, record_event (Printed [Lit "Usage: ./scw.py upload <filename>"]) w)
  /\
  main env fuel (script :: py "download" :: args) w =
    (Exit 1, record_event (Printed [Lit "Usage: ./scw.py download <filename>"]) w).
Proof.
  intros Hargs.
  assert (Harity : forall command,
            Nat.eqb (List.length (script :: command :: args)) 3 = false).
  { intros command. apply Nat.eqb_neq. cbn [List.length]. lia. }
  unfold main. cbv zeta. rewrite !Harity. cbn [nth].
  split.
  - change (py "upload") with [117; 112; 108; 111; 97; 100].
    cbn -[Nat.eqb]. reflexivity.
  - change (py "download") with [100; 111; 119; 110; 108; 111; 97; 100].
    cbn -[Nat.eqb]. reflexivity.
Qed.

Lemma main_transfer_arity_witness :
  main quiet 3 [py "./scw.py"; py "upload"; py "a.txt"; py "b.txt"] owned =
    (Exit 1, record_event (Printed [Lit "Usage: ./scw.py upload <filename>"]) owned)
  /\
  main quiet 3 [py "./scw.py"; py "download"; py "a.txt"; py "b.txt"] owned =
    (Exit 1,
     record_event (Printed [Lit "Usage: ./scw.py download <filename>"]) owned).
Proof.
  apply (main_transfer_arity quiet 3 (py "./scw.py") [py "a.txt"; py "b.txt"] owned).
  cbn. lia.
Defined.

(** ** Polling the address and the remote shell *)


Lemma wait_for_ip_loop_run (env : environment) (id ip : json) (n extra : nat) :
  forall w : world,
    (forall k, (k < n)%nat ->
       exists a, listed_address id (respond env (calls w + k) ScwIpList) = Val a /\
                 truthy a = false) ->
    listed_address id (respond env (calls w + n) ScwIpList) = Val ip ->
    truthy ip = true ->
    exists w',
      wait_for_ip_loop env (S n + extra) id w = (Ret ip, w') /\
      state_file w' = state_file w /\
      calls w' = (calls w + S n)%nat /\
      events w' =
        events w ++ waiting_events n ScwIpList ++
        [Run ScwIpList; Printed [Lit " "; Fmt ip]].
Proof.
  induction n as [|n IH]; intros w Hwait Hfound Hip.
  - cbn [Nat.add wait_for_ip_loop]. unfold bind at 1.
    rewrite get_instance_ip_run.
    rewrite Nat.add_0_r in Hfound. rewrite Hfound. cbn [lift]. rewrite Hip. cbn.
    eexists. split; [reflexivity|]. cbn.
    repeat split; [lia|].
    unfold events. cbn. rewrite !map_app, <- app_assoc. reflexivity.
  - change (S (S n) + extra)%nat with (S (S n + extra)).
    cbn [wait_for_ip_loop]. unfold bind at 1.
    rewrite get_instance_ip_run.
    destruct (Hwait 0%nat ltac:(lia)) as (a & Ha & Hfalse).
    rewrite Nat.add_0_r in Ha. rewrite Ha. cbn [lift]. rewrite Hfalse.
    unfold bind, print_inline, sleep, emit.
    set (w2 := record_event _ (record_event _ (count_call _))).
    destruct (IH w2) as (w' & Hrun & Hfile & Hcalls & Hev).
    + intros k Hk. replace (calls w2 + k)%nat with (calls w + S k)%nat
        by (subst w2; cbn; lia).
      apply Hwait. lia.
    + replace (calls w2 + n)%nat with (calls w + S n)%nat
        by (subst w2; cbn; lia).
      exact Hfound.
    + exact Hip.
    + exists w'. split; [exact Hrun|]. split; [rewrite Hfile; reflexivity|].
      split; [rewrite Hcalls; subst w2; cbn; lia|].
      rewrite Hev. subst w2. unfold events. cbn.
      rewrite !map_app, <- !app_assoc. reflexivity.
Qed.

(** X10: when the listing of the addresses fails, or shows no address
    for the instance, for the first [n] queries, and shows the address
    [ip] at the next one, [wait_for_ip] returns [ip] after exactly
    [n + 1] queries, with a sleep of 5 after each of the first [n]. *)
Theorem wait_for_ip_terminates (env : environment) (id ip : json)
    (n extra : nat) (w : world) :
  (forall k, (k < n)%nat ->
     exists a, listed_address id (respond env (calls w + k) ScwIpList) = Val a /\
               truthy a = false) ->
  listed_address id (respond env (calls w + n) ScwIpList) = Val ip ->
  truthy ip = true ->
  exists w',
    wait_for_ip env (S n + extra) id w = (Ret ip, w') /\
    calls w' = (calls w + S n)%nat /\
    events w' =
      events w ++
      PrintedInline [Lit "Waiting for IP assignment"] ::
      waiting_events n ScwIpList ++
      [Run ScwIpList; Printed [Lit " "; Fmt ip]].
Proof.
  intros Hwait Hfound Hip.
  unfold wait_for_ip, bind, print_inline, emit.
  set (w1 := record_event _ w).
  destruct (wait_for_ip_loop_run env id ip n extra w1 Hwait Hfound Hip)
    as (w' & Hrun & _ & Hcalls & Hev).
  exists w'. split; [exact Hrun|]. split; [exact Hcalls|].
  rewrite Hev. subst w1. unfold events. cbn.
  rewrite map_app, <- app_assoc. reflexivity.
Qed.

Lemma wait_for_ip_terminates_witness :
  exists w',
    wait_for_ip scenario (S 2 + 0) (JStr (py "i-1"))
      (count_call (count_call (count_call (count_call fresh))))
    = (Ret (JStr (py "10.0.0.5")), w') /\
    calls w' = (4 + S 2)%nat /\
    events w' =
      events fresh ++
      PrintedInline [Lit "Waiting for IP assignment"] ::
      waiting_events 2 ScwIpList ++
      [Run ScwIpList; Printed [Lit " "; Fmt (JStr (py "10.0.0.5"))]].
Proof.
  apply (wait_for_ip_terminates scenario (JStr (py "i-1")) (JStr (py "10.0.0.5"))
           2 0 (count_call (count_call (count_call (count_call fresh))))).
  - intros k Hk. exists (JNull).
    destruct k as [|[|k]]; [split; reflexivity | split; reflexivity | exfalso; lia].
  - reflexivity.
  - reflexivity.
Defined.

Lemma wait_for_ssh_loop_run (env : environment) (ip : json) (n extra : nat) :
  forall w : world,
    (forall k, (k < n)%nat ->
       returncode (respond env (calls w + k) (Ssh ip EchoOk)) <> 0) ->
    returncode (respond env (calls w + n) (Ssh ip EchoOk)) = 0 ->
    exists w',
      wait_for_ssh_loop env (S n + extra) ip w = (Ret tt, w') /\
      state_file w' = state_file w /\
      calls w' = (calls w + S n)%nat /\
      events w' =
        events w ++ waiting_events n (Ssh ip EchoOk) ++
        [Run (Ssh ip EchoOk); Printed [Lit " Ready!"]].
Proof.
  induction n as [|n IH]; intros w Hwait Hok.
  - cbn [Nat.add wait_for_ssh_loop]. unfold bind at 1, ssh_run, run. cbn.
    rewrite Nat.add_0_r in Hok. rewrite Hok. cbn.
    eexists. split; [reflexivity|]. cbn.
    repeat split; [lia|].
    unfold events. cbn. rewrite !map_app, <- app_assoc. reflexivity.
  - change (S (S n) + extra)%nat with (S (S n + extra)).
    rewrite wait_for_ssh_retries_on_error
      by (specialize (Hwait 0%nat ltac:(lia)); rewrite Nat.add_0_r in Hwait;
          exact Hwait).
    set (w2 := record_event _ (record_event _ (count_call _))).
    destruct (IH w2) as (w' & Hrun & Hfile & Hcalls & Hev).
    + intros k Hk. replace (calls w2 + k)%nat with (calls w + S k)%nat
        by (subst w2; cbn; lia).
      apply Hwait. lia.
    + replace (calls w2 + n)%nat with (calls w + S n)%nat
        by (subst w2; cbn; lia).
      exact Hok.
    + exists w'. split; [exact Hrun|]. split; [rewrite Hfile; reflexivity|].
      split; [rewrite Hcalls; subst w2; cbn; lia|].
      rewrite Hev. subst w2. unfold events. cbn.
      rewrite !map_app, <- !app_assoc. reflexivity.
Qed.

(** X11: when the remote command exits with an error for the first [n]
    attempts and with 0 at the next one, [wait_for_ssh] returns after
    exactly [n + 1] attempts, with a sleep of 5 after each of the first
    [n]. *)
Theorem wait_for_ssh_terminates (env : environment) (ip : json)
    (n extra : nat) (w : world) :
  (forall k, (k < n)%nat ->
     returncode (respond env (calls w + k) (Ssh ip EchoOk)) <> 0) ->
  returncode (respond env (calls w + n) (Ssh ip EchoOk)) = 0 ->
  exists w',
    wait_for_ssh env (S n + extra) ip w = (Ret tt, w') /\
    calls w' = (calls w + S n)%nat /\
    events w' =
      events w ++
      PrintedInline [Lit "Waiting for SSH"] ::
      waiting_events n (Ssh ip EchoOk) ++
      [Run (Ssh ip EchoOk); Printed [Lit " Ready!"]].
Proof.
  intros Hwait Hok.
  unfold wait_for_ssh, bind, print_inline, emit.
  set (w1 := record_event _ w).
  destruct (wait_for_ssh_loop_run env ip n extra w1 Hwait Hok)
    as (w' & Hrun & _ & Hcalls & Hev).
  exists w'. split; [exact Hrun|]. split; [exact Hcalls|].
  rewrite Hev. subst w1. unfold events. cbn.
  rewrite map_app, <- app_assoc. reflexivity.
Qed.

Lemma wait_for_ssh_terminates_witness :
  let w := {| state_file := None; known_hosts := true;
              work_path := Directory; work_creatable := true;
              entries := fun _ => Missing; calls := 8; log := [] |} in
  exists w',
    wait_for_ssh scenario (S 2 + 0) (JStr (py "10.0.0.5")) w = (Ret tt, w') /\
    calls w' = (calls w + S 2)%nat /\
    events w' =
      events w ++
      PrintedInline [Lit "Waiting for SSH"] ::
      waiting_events 2 (Ssh (JStr (py "10.0.0.5")) EchoOk) ++
      [Run (Ssh (JStr (py "10.0.0.5")) EchoOk); Printed [Lit " Ready!"]].
Proof.
  apply (wait_for_ssh_terminates scenario (JStr (py "10.0.0.5")) 2 0
           {| state_file := None; known_hosts := true;
              work_path := Directory; work_creatable := true;
              entries := fun _ => Missing; calls := 8; log := [] |}).
  - intros k Hk.
    destruct k as [|[|k]]; [discriminate | discriminate | exfalso; lia].
  - reflexivity.
Defined.

(** ** A power state that never becomes running *)

Lemma wait_for_running_loop_waits (env : environment) (id : pystr) (fuel : nat) :
  forall w : world,
    (forall k, (k < fuel)%nat ->
       exists v,
         reported_state (respond env (calls w + k) (ScwGet (JStr id))) = Val v /\
         eq_str v (py "running") = false) ->
    exists w',
      wait_for_running_loop env fuel (JStr id) w = (Waiting, w') /\
      state_file w' = state_file w /\
      calls w' = (calls w + fuel)%nat /\
      events w' = events w ++ waiting_events fuel (ScwGet (JStr id)).
Proof.
  induction fuel as [|fuel IH]; intros w Hstate.
  - cbn [wait_for_running_loop]. exists w. repeat split; [lia|].
    cbn [waiting_events]. rewrite app_nil_r. reflexivity.
  - cbn [wait_for_running_loop]. unfold bind at 1.
    rewrite get_instance_state_run.
    destruct (Hstate 0%nat ltac:(lia)) as (v & Hv & Hother).
    rewrite Nat.add_0_r in Hv. rewrite Hv. cbn [lift]. rewrite Hother.
    unfold bind, print_inline, sleep, emit.
    set (w2 := record_event _ (record_event _ (count_call _))).
    destruct (IH w2) as (w' & Hrun & Hfile & Hcalls & Hev).
    + intros k Hk. replace (calls w2 + k)%nat with (calls w + S k)%nat
        by (subst w2; cbn; lia).
      apply Hstate. lia.
    + exists w'. split; [exact Hrun|]. split; [rewrite Hfile; reflexivity|].
      split; [rewrite Hcalls; subst w2; cbn; lia|].
      rewrite Hev. subst w2. unfold events. cbn.
      rewrite !map_app, <- !app_assoc. reflexivity.
Qed.

(** X12: [wait_for_running] has no bound and no way out but the state
    running: while every reply is a JSON object whose state is
    something else (pending, but also stopped, or no state at all), the
    loop makes one query and one sleep of 5 for each round it is given,
    and is still waiting after them. *)
Theorem wait_for_running_keeps_waiting (env : environment) (id : pystr)
    (fuel : nat) (w : world) :
  (forall k, (k < fuel)%nat ->
     exists v,
       reported_state (respond env (calls w + k) (ScwGet (JStr id))) = Val v /\
       eq_str v (py "running") = false) ->
  exists w',
    wait_for_running env fuel (JStr id) w = (Waiting, w') /\
    calls w' = (calls w + fuel)%nat /\
    events w' =
      events w ++
      PrintedInline [Lit "Waiting for instance to start"] ::
      waiting_events fuel (ScwGet (JStr id)).
Proof.
  intros Hstate.
  unfold wait_for_running, bind, print_inline, emit.
  set (w1 := record_event _ w).
  destruct (wait_for_running_loop_waits env id fuel w1 Hstate)
    as (w' & Hrun & _ & Hcalls & Hev).
  exists w'. split; [exact Hrun|]. split; [exact Hcalls|].
  rewrite Hev. subst w1. unfold events. cbn.
  rewrite map_app, <- app_assoc. reflexivity.
Qed.

Lemma wait_for_running_keeps_waiting_witness :
  exists w',
    wait_for_running scenario 2 (JStr (py "i-1")) (count_call fresh)
    = (Waiting, w') /\
    calls w' = (calls (count_call fresh) + 2)%nat /\
    events w' =
      events (count_call fresh) ++
      PrintedInline [Lit "Waiting for instance to start"] ::
      waiting_events 2 (ScwGet (JStr (py "i-1"))).
Proof.
  apply (wait_for_running_keeps_waiting scenario (py "i-1") 2 (count_call fresh)).
  intros k Hk. exists (JStr (py "pending")).
  destruct k as [|[|k]]; [split; reflexivity | split; reflexivity | exfalso; lia].
Defined.

(** ** What the extracted token is *)

Lemma strip_prefix_some (p s r : pystr) :
  strip_prefix p s = Some r -> s = p ++ r.
Proof.
  revert s. induction p as [|x p IH]; intros s H.
  - cbn in H. injection H as ->. reflexivity.
  - destruct s as [|y s]; [discriminate|].
    cbn [strip_prefix] in H.
    destruct (Z.eqb_spec x y) as [->|]; [|discriminate].
    cbn [app]. f_equal. apply IH. exact H.
Qed.

Lemma take_token_split (s : pystr) :
  exists post,
    s = take_token s ++ post /\
    forallb token_char (take_token s) = true /\
    match post with [] => True | c :: _ => token_char c = false end.
Proof.
  induction s as [|c s (post & Hs & Hall & Hpost)].
  - exists []. repeat split.
  - cbn [take_token]. destruct (token_char c) eqn:Hc.
    + exists post. cbn [app forallb]. rewrite Hc, Hall.
      repeat split; [f_equal; exact Hs | exact Hpost].
    + exists (c :: s). repeat split. exact Hc.
Qed.

Lemma search_token_some (s t : pystr) :
  search_token s = Some t ->
  exists pre post,
    s = pre ++ py "token=" ++ t ++ post /\
    t <> [] /\
    forallb token_char t = true /\
    match post with [] => True | c :: _ => token_char c = false end.
Proof.
  induction s as [|c s IH]; cbn [search_token].
  - unfold match_token. cbn. discriminate.
  - destruct (match_token (c :: s)) as [t'|] eqn:Hm.
    + intros H. injection H as ->.
      unfold match_token in Hm.
      destruct (strip_prefix (py "token=") (c :: s)) as [rest|] eqn:Hp;
        [|discriminate].
      apply strip_prefix_some in Hp.
      destruct (take_token_split rest) as (post & Hrest & Hall & Hpost).
      destruct (take_token rest) as [|x t'] eqn:Ht; [discriminate|].
      injection Hm as <-.
      exists [], post. cbn [app]. repeat split; try assumption.
      * rewrite Hp, Hrest. reflexivity.
      * discriminate.
    + intros H. destruct (IH H) as (pre & post & Hs & Ht & Hall & Hpost).
      exists (c :: pre), post. cbn [app]. repeat split; try assumption.
      f_equal. exact Hs.
Qed.

(** X14: the token [extract_jupyter_token] returns is made of characters
    of the class [a-zA-Z0-9_-] only, and when it is not empty it stands
    in the output right after a [token=], up to the end of the output
    or to a character outside the class. *)
Theorem extract_jupyter_token_sound (s : pystr) :
  let t := extract_jupyter_token s in
  forallb token_char t = true /\
  (t = [] \/
   exists pre post,
     s = pre ++ py "token=" ++ t ++ post /\
     match post with [] => True | c :: _ => token_char c = false end).
Proof.
  unfold extract_jupyter_token.
  destruct (search_token s) as [t|] eqn:Hs; cbv zeta.
  - destruct (search_token_some s t Hs) as (pre & post & Heq & _ & Hall & Hpost).
    split; [exact Hall|]. right. exists pre, post. split; assumption.
  - split; [reflexivity | left; reflexivity].
Qed.

(** ** The address of the instance in the listing *)

Lemma str_eqb_eq (a b : pystr) : str_eqb a b = true -> a = b.
Proof.
  revert b. induction a as [|x a IH]; intros [|y b] H; try discriminate.
  - reflexivity.
  - cbn [str_eqb] in H. apply andb_true_iff in H as [Hxy Hab].
    apply Z.eqb_eq in Hxy. subst. f_equal. apply IH, Hab.
Qed.

Lemma py_eq_str (v : json) (s : pystr) : py_eq v (JStr s) = true -> v = JStr s.
Proof.
  destruct v; cbn; try discriminate.
  intros H. f_equal. apply str_eqb_eq, H.
Qed.

(** X15: an address [find_ip] returns for an instance comes from an
    entry of the listing whose server has the identifier of that
    instance: the address of another instance is never returned. *)
Theorem find_ip_sound (id : pystr) (items : list json) (a : json) :
  find_ip (JStr id) items = Val a ->
  a <> JNull ->
  exists d server,
    In (JObj d) items /\
    dict_lookup d (py "server") = Some (JObj server) /\
    dict_lookup server (py "id") = Some (JStr id) /\
    dict_lookup d (py "address") = Some a.
Proof.
  intros Hfind Ha. induction items as [|ip_info items IH]; cbn [find_ip] in Hfind.
  - injection Hfind as <-. congruence.
  - unfold get, get_or in Hfind.
    destruct ip_info as [| | | | |d]; try discriminate Hfind.
    assert (Hrest : find_ip (JStr id) items = Val a ->
                    exists d0 server,
                      In (JObj d0) (JObj d :: items) /\
                      dict_lookup d0 (py "server") = Some (JObj server) /\
                      dict_lookup server (py "id") = Some (JStr id) /\
                      dict_lookup d0 (py "address") = Some a).
    { intros H. destruct (IH H) as (d0 & server & Hin & Hrest).
      exists d0, server. split; [right; exact Hin | exact Hrest]. }
    destruct (dict_lookup d (py "server")) as [server|] eqn:Hserver;
      cbn [rbind truthy] in Hfind; [|exact (Hrest Hfind)].
    destruct (truthy server) eqn:Htruthy; cbn [rbind] in Hfind;
      [|exact (Hrest Hfind)].
    destruct server as [| | | | |sd]; try discriminate Hfind.
    destruct (dict_lookup sd (py "id")) as [sid|] eqn:Hsid; cbn [rbind] in Hfind.
    + destruct (py_eq sid (JStr id)) eqn:Heq; [|exact (Hrest Hfind)].
      apply py_eq_str in Heq. subst sid.
      destruct (dict_lookup d (py "address")) as [addr|] eqn:Haddr.
      * injection Hfind as ->.
        exists d, sd. split; [left; reflexivity|]. auto.
      * injection Hfind as <-. congruence.
    + cbn in Hfind. exact (Hrest Hfind).
Qed.

Lemma find_ip_sound_witness :
  exists d server,
    In (JObj d)
      [JObj [(py "address", JStr (py "10.0.0.9")); (py "server", JNull)];
       JObj [(py "address", JStr (py "10.0.0.5"));
             (py "server", JObj [(py "id", JStr (py "i-1"))])]] /\
    dict_lookup d (py "server") = Some (JObj server) /\
    dict_lookup server (py "id") = Some (JStr (py "i-1")) /\
    dict_lookup d (py "address") = Some (JStr (py "10.0.0.5")).
Proof.
  apply (find_ip_sound (py "i-1")
           [JObj [(py "address", JStr (py "10.0.0.9")); (py "server", JNull)];
            JObj [(py "address", JStr (py "10.0.0.5"));
                  (py "server", JObj [(py "id", JStr (py "i-1"))])]]
           (JStr (py "10.0.0.5"))).
  - reflexivity.
  - discriminate.
Defined.

(** ** The work directory *)

(** X16: [upload_work_dir] always returns, whatever the remote command
    and the copy answer: without a local work directory it starts no
    process, with one it runs the remote [mkdir] and one recursive copy
    of the contents; the state file is not touched. *)
Theorem upload_work_dir_best_effort (env : environment) (ip : json) (w : world) :
  exists w',
    upload_work_dir env ip w = (Ret tt, w') /\
    state_file w' = state_file w /\
    processes w' =
      processes w ++
      (if work_dir w
       then [Ssh ip MkdirWorkDir; ScpTo LocalWorkContents RemoteWorkDir ip true]
       else []).
Proof.
  unfold upload_work_dir.
  destruct (work_dir w); cbn [negb].
  - branches; eexists; (split; [reflexivity|]); (split; [reflexivity|]);
      autorewrite with world; rewrite <- app_assoc; reflexivity.
  - eexists. split; [reflexivity|]. split; [reflexivity|].
    autorewrite with world. rewrite app_nil_r. reflexivity.
Qed.

(** X17: [download_work_dir] first makes the local work directory.
    When that fails (a plain file stands in its place, or it cannot be
    made) the call dies of the exception in the world it found, before
    any process.  Otherwise it returns, whatever the remote test and the
    copy answer: the local work directory is in place, it has run the
    test of the remote directory, and one recursive copy of the contents
    exactly when the output of the test contains [exists]; the state
    file is not touched. *)
Theorem download_work_dir_best_effort (env : environment) (ip : json)
    (w : world) :
  if mkdir_ok w then
    exists w',
      download_work_dir env ip w = (Ret tt, w') /\
      work_path w' = Directory /\
      state_file w' = state_file w /\
      processes w' =
        processes w ++
        Ssh ip TestWorkDir ::
        (if str_in (py "exists") (stdout (respond env (calls w) (Ssh ip TestWorkDir)))
         then [ScpFrom RemoteWorkContents LocalWorkDir ip true]
         else [])
  else download_work_dir env ip w = (Raise (mkdir_error w), w).
Proof.
  destruct (mkdir_ok w) eqn:Hok; unfold download_work_dir.
  - unfold bind at 1. ready Hok;
      branches; eexists; (split; [reflexivity|]);
      (split; [first [reflexivity | assumption]|]); (split; [reflexivity|]);
      autorewrite with world; rewrite <- ?app_assoc; reflexivity.
  - revert Hok. unfold bind, mkdir_ok, mkdir_work_dir, mkdir_error.
    destruct (work_path w); [destruct (work_creatable w)| |];
      intros Hok; try discriminate Hok; reflexivity.
Qed.

(** ** A start that succeeds *)

Lemma replay_app (es1 es2 : list event) (w : world) :
  replay (es1 ++ es2) w = replay es2 (replay es1 w).
Proof. apply fold_left_app. Qed.

Lemma replay_state (es : list event) :
  forall w,
    state_file (replay es w) = state_file w /\
    known_hosts (replay es w) = known_hosts w /\
    work_dir (replay es w) = work_dir w /\
    calls (replay es w) = (calls w + List.length (flat_map command_of es))%nat /\
    processes (replay es w) = processes w ++ flat_map command_of es.
Proof.
  induction es as [|e es IH]; intros w.
  - cbn. rewrite app_nil_r. repeat split; lia.
  - change (replay (e :: es) w) with (replay es (apply_event w e)).
    destruct (IH (apply_event w e)) as (Hf & Hk & Hd & Hc & He).
    rewrite Hf, Hk, Hd, Hc, He.
    destruct e; cbn; unfold processes, events; cbn;
      rewrite ?map_app, ?flat_map_app, <- ?app_assoc; cbn;
      rewrite ?app_nil_r; repeat split; lia.
Qed.

Lemma after_state (w w' : world) (cs : list command) :
  after w cs w' ->
  state_file w' = state_file w /\
  known_hosts w' = known_hosts w /\
  work_dir w' = work_dir w /\
  calls w' = (calls w + List.length cs)%nat /\
  processes w' = processes w ++ cs.
Proof. intros (es & -> & <-). apply replay_state. Qed.

Lemma after_refl (w : world) : after w [] w.
Proof. exists []. split; reflexivity. Qed.

Lemma after_trans (w w1 w2 : world) (cs1 cs2 : list command) :
  after w cs1 w1 -> after w1 cs2 w2 -> after w (cs1 ++ cs2) w2.
Proof.
  intros (es1 & -> & <-) (es2 & -> & <-). exists (es1 ++ es2).
  split; [symmetry; apply replay_app | apply flat_map_app].
Qed.

Lemma commands_polling_events (n : nat) (id : json) :
  flat_map command_of (polling_events n id) = repeat (ScwGet id) (S n).
Proof.
  induction n as [|n IH]; [reflexivity|].
  cbn [polling_events flat_map command_of app]. rewrite IH. reflexivity.
Qed.

Lemma commands_waiting_events (n : nat) (c : command) :
  flat_map command_of (waiting_events n c ++ [Run c]) = repeat c (S n).
Proof.
  induction n as [|n IH]; [reflexivity|].
  cbn [waiting_events flat_map command_of app]. rewrite IH. reflexivity.
Qed.

(** *** What the steps of the script yield *)

Lemma yields_print (line : list piece) (w : world) :
  yields (print line) w tt [].
Proof. eexists. split; [reflexivity|]. exists [Printed line]. split; reflexivity. Qed.

Lemma yields_print_inline (t : list piece) (w : world) :
  yields (print_inline t) w tt [].
Proof. eexists. split; [reflexivity|]. exists [PrintedInline t]. split; reflexivity. Qed.

Lemma yields_run (env : environment) (c : command) (w : world) :
  forallb is_str (raw_args c) = true ->
  yields (run env c) w (respond env (calls w) c) [c].
Proof.
  intros Hstr. unfold yields, run. rewrite Hstr. eexists. split; [reflexivity|].
  exists [Run c]. split; reflexivity.
Qed.

Lemma yields_lift {A} (r : result A) (a : A) (w : world) :
  r = Val a -> yields (lift r) w a [].
Proof. intros ->. exists w. split; [reflexivity | apply after_refl]. Qed.

(** A call that yields hands its value and its world to what follows. *)
Lemma returns_bind {A B} (m : M A) (k : A -> M B) (a : A)
    (w0 w : world) (cs0 cs : list command) (Q : outcome B * world -> Prop) :
  after w0 cs0 w ->
  yields m w a cs ->
  (forall w1, after w0 (cs0 ++ cs) w1 -> Q (k a w1)) ->
  Q (bind m k w).
Proof.
  intros H0 (w1 & Hrun & H1) Hk. unfold bind. rewrite Hrun.
  apply Hk. exact (after_trans _ _ _ _ _ H0 H1).
Qed.

Lemma yields_bind {A B} (m : M A) (k : A -> M B) (a : A) (b : B)
    (w : world) (cs1 cs2 : list command) :
  yields m w a cs1 ->
  (forall w1, after w cs1 w1 -> yields (k a) w1 b cs2) ->
  yields (bind m k) w b (cs1 ++ cs2).
Proof.
  intros (w1 & Hrun & H1) Hk. destruct (Hk w1 H1) as (w2 & Hrun2 & H2).
  exists w2. unfold bind. rewrite Hrun. split; [exact Hrun2|].
  exact (after_trans _ _ _ _ _ H1 H2).
Qed.

Lemma wait_for_running_loop_replay (env : environment) (id : pystr)
    (n extra : nat) :
  forall w : world,
    (forall k, (k < n)%nat ->
       exists s,
         reported_state (respond env (calls w + k) (ScwGet (JStr id))) = Val s /\
         eq_str s (py "running") = false) ->
    reported_state (respond env (calls w + n) (ScwGet (JStr id)))
    = Val (JStr (py "running")) ->
    wait_for_running_loop env (S n + extra) (JStr id) w =
      (Ret tt, replay (polling_events n (JStr id)) w).
Proof.
  induction n as [|n IH]; intros w Hpending Hrunning.
  - cbn [Nat.add wait_for_running_loop]. unfold bind.
    rewrite get_instance_state_run.
    rewrite Nat.add_0_r in Hrunning. rewrite Hrunning. reflexivity.
  - change (S (S n) + extra)%nat with (S (S n + extra)).
    cbn [wait_for_running_loop]. unfold bind at 1.
    rewrite get_instance_state_run.
    destruct (Hpending 0%nat ltac:(lia)) as (s & H0 & Hs).
    rewrite Nat.add_0_r in H0. rewrite H0. cbn [lift]. rewrite Hs.
    unfold bind, print_inline, sleep, emit.
    rewrite IH.
    + reflexivity.
    + intros k Hk. cbn [calls record_event count_call].
      replace (S (calls w) + k)%nat with (calls w + S k)%nat by lia.
      apply Hpending. lia.
    + cbn [calls record_event count_call].
      replace (S (calls w) + n)%nat with (calls w + S n)%nat by lia.
      exact Hrunning.
Qed.

Lemma wait_for_ip_loop_replay (env : environment) (id ip : json)
    (n extra : nat) :
  forall w : world,
    (forall k, (k < n)%nat ->
       exists a, listed_address id (respond env (calls w + k) ScwIpList) = Val a /\
                 truthy a = false) ->
    listed_address id (respond env (calls w + n) ScwIpList) = Val ip ->
    truthy ip = true ->
    wait_for_ip_loop env (S n + extra) id w =
      (Ret ip,
       replay ((waiting_events n ScwIpList ++ [Run ScwIpList]) ++
               [Printed [Lit " "; Fmt ip]]) w).
Proof.
  induction n as [|n IH]; intros w Hwait Hfound Hip.
  - cbn [Nat.add wait_for_ip_loop]. unfold bind at 1.
    rewrite get_instance_ip_run.
    rewrite Nat.add_0_r in Hfound. rewrite Hfound. cbn [lift]. rewrite Hip.
    reflexivity.
  - change (S (S n) + extra)%nat with (S (S n + extra)).
    cbn [wait_for_ip_loop]. unfold bind at 1.
    rewrite get_instance_ip_run.
    destruct (Hwait 0%nat ltac:(lia)) as (a & Ha & Hfalse).
    rewrite Nat.add_0_r in Ha. rewrite Ha. cbn [lift]. rewrite Hfalse.
    unfold bind, print_inline, sleep, emit.
    rewrite IH.
    + reflexivity.
    + intros k Hk. cbn [calls record_event count_call].
      replace (S (calls w) + k)%nat with (calls w + S k)%nat by lia.
      apply Hwait. lia.
    + cbn [calls record_event count_call].
      replace (S (calls w) + n)%nat with (calls w + S n)%nat by lia.
      exact Hfound.
    + exact Hip.
Qed.

Lemma wait_for_ssh_loop_replay (env : environment) (ip : json) (n extra : nat) :
  forall w : world,
    (forall k, (k < n)%nat ->
       returncode (respond env (calls w + k) (Ssh ip EchoOk)) <> 0) ->
    returncode (respond env (calls w + n) (Ssh ip EchoOk)) = 0 ->
    wait_for_ssh_loop env (S n + extra) ip w =
      (Ret tt,
       replay ((waiting_events n (Ssh ip EchoOk) ++ [Run (Ssh ip EchoOk)]) ++
               [Printed [Lit " Ready!"]]) w).
Proof.
  induction n as [|n IH]; intros w Hwait Hok.
  - cbn [Nat.add wait_for_ssh_loop]. unfold bind at 1, ssh_run, run. cbn.
    rewrite Nat.add_0_r in Hok. rewrite Hok. reflexivity.
  - change (S (S n) + extra)%nat with (S (S n + extra)).
    rewrite wait_for_ssh_retries_on_error
      by (specialize (Hwait 0%nat ltac:(lia)); rewrite Nat.add_0_r in Hwait;
          exact Hwait).
    rewrite IH.
    + reflexivity.
    + intros k Hk. cbn [calls record_event count_call].
      replace (S (calls w) + k)%nat with (calls w + S k)%nat by lia.
      apply Hwait. lia.
    + cbn [calls record_event count_call].
      replace (S (calls w) + n)%nat with (calls w + S n)%nat by lia.
      exact Hok.
Qed.

Lemma yields_wait_for_running (env : environment) (id : pystr)
    (fuel n : nat) (w : world) :
  (n < fuel)%nat ->
  (forall k, (k < n)%nat ->
     exists s,
       reported_state (respond env (calls w + k) (ScwGet (JStr id))) = Val s /\
       eq_str s (py "running") = false) ->
  reported_state (respond env (calls w + n) (ScwGet (JStr id)))
  = Val (JStr (py "running")) ->
  yields (wait_for_running env fuel (JStr id)) w tt
    (repeat (ScwGet (JStr id)) (S n)).
Proof.
  intros Hfuel Hpending Hrunning. unfold wait_for_running.
  apply (yields_bind _ _ tt tt w [] _ (yields_print_inline _ w)).
  intros w1 H1. destruct (after_state _ _ _ H1) as (_ & _ & _ & Hc & _).
  cbn [List.length] in Hc. rewrite Nat.add_0_r in Hc.
  replace fuel with (S n + (fuel - S n))%nat by lia.
  eexists. split.
  - apply wait_for_running_loop_replay; rewrite Hc; assumption.
  - eexists. split; [reflexivity | apply commands_polling_events].
Qed.

Lemma yields_wait_for_ip (env : environment) (id ip : json)
    (fuel n : nat) (w : world) :
  (n < fuel)%nat ->
  (forall k, (k < n)%nat ->
     exists a, listed_address id (respond env (calls w + k) ScwIpList) = Val a /\
               truthy a = false) ->
  listed_address id (respond env (calls w + n) ScwIpList) = Val ip ->
  truthy ip = true ->
  yields (wait_for_ip env fuel id) w ip (repeat ScwIpList (S n)).
Proof.
  intros Hfuel Hwait Hfound Hip. unfold wait_for_ip.
  apply (yields_bind _ _ tt ip w [] _ (yields_print_inline _ w)).
  intros w1 H1. destruct (after_state _ _ _ H1) as (_ & _ & _ & Hc & _).
  cbn [List.length] in Hc. rewrite Nat.add_0_r in Hc.
  replace fuel with (S n + (fuel - S n))%nat by lia.
  eexists. split.
  - apply wait_for_ip_loop_replay; rewrite ?Hc; assumption.
  - eexists. split; [reflexivity|].
    rewrite flat_map_app, commands_waiting_events. apply app_nil_r.
Qed.

Lemma yields_wait_for_ssh (env : environment) (ip : json)
    (fuel n : nat) (w : world) :
  (n < fuel)%nat ->
  (forall k, (k < n)%nat ->
     returncode (respond env (calls w + k) (Ssh ip EchoOk)) <> 0) ->
  returncode (respond env (calls w + n) (Ssh ip EchoOk)) = 0 ->
  yields (wait_for_ssh env fuel ip) w tt (repeat (Ssh ip EchoOk) (S n)).
Proof.
  intros Hfuel Hwait Hok. unfold wait_for_ssh.
  apply (yields_bind _ _ tt tt w [] _ (yields_print_inline _ w)).
  intros w1 H1. destruct (after_state _ _ _ H1) as (_ & _ & _ & Hc & _).
  cbn [List.length] in Hc. rewrite Nat.add_0_r in Hc.
  replace fuel with (S n + (fuel - S n))%nat by lia.
  eexists. split.
  - apply wait_for_ssh_loop_replay; rewrite ?Hc; assumption.
  - eexists. split; [reflexivity|].
    rewrite flat_map_app, commands_waiting_events. apply app_nil_r.
Qed.

Lemma yields_remove_from_known_hosts (env : environment) (ip : pystr)
    (w : world) :
  yields (remove_from_known_hosts env (JStr ip)) w tt
    (keygen_processes w (JStr ip)).
Proof.
  unfold yields, remove_from_known_hosts, keygen_processes.
  destruct (known_hosts w).
  - apply (yields_bind _ _ _ tt w [SshKeygen (JStr ip)] []
             (yields_run env (SshKeygen (JStr ip)) w eq_refl)).
    intros w1 _. apply yields_print.
  - exists w. split; [reflexivity | apply after_refl].
Qed.

Lemma yields_upload_work_dir (env : environment) (ip : json) (w : world) :
  yields (upload_work_dir env ip) w tt (bulk_upload_processes w ip).
Proof.
  unfold yields, upload_work_dir, bulk_upload_processes.
  destruct (work_dir w); cbn [negb].
  - apply (yields_bind _ _ tt tt w [] _ (yields_print _ w)). intros w1 _.
    apply (yields_bind _ _ _ tt w1 [Ssh ip MkdirWorkDir] _
             (yields_run env (Ssh ip MkdirWorkDir) w1 eq_refl)).
    intros w2 _.
    apply (yields_bind _ _ _ tt w2
             [ScpTo LocalWorkContents RemoteWorkDir ip true] []
             (yields_run env (ScpTo LocalWorkContents RemoteWorkDir ip true) w2 eq_refl)).
    intros w3 _. destruct (negb _); apply yields_print.
  - apply yields_print.
Qed.

Lemma yields_start_ssh_tunnel (env : environment) (ip : json) (w : world) :
  yields (start_ssh_tunnel env ip) w tt [SshTunnel ip].
Proof.
  unfold start_ssh_tunnel.
  apply (yields_bind _ _ tt tt w [] _ (yields_print _ w)). intros w1 _.
  apply (yields_bind _ _ tt tt w1 [] _ (yields_print _ w1)). intros w2 _.
  unfold yields. destruct (interrupt env (calls w2)).
  - eexists. split; [reflexivity|].
    eapply (after_trans w2 _ _ [SshTunnel ip] []).
    + exists [Run (SshTunnel ip)]. split; reflexivity.
    + eexists [Printed _]. split; reflexivity.
  - eexists. split; [reflexivity|].
    exists [Run (SshTunnel ip)]. split; reflexivity.
Qed.

Lemma returns_last {A} (m : M A) (a : A)
    (w0 w : world) (cs0 cs : list command) (Q : outcome A * world -> Prop) :
  after w0 cs0 w ->
  yields m w a cs ->
  (forall w1, after w0 (cs0 ++ cs) w1 -> Q (Ret a, w1)) ->
  Q (m w).
Proof.
  intros H0 (w1 & Hrun & H1) Hk. rewrite Hrun.
  apply Hk. exact (after_trans _ _ _ _ _ H0 H1).
Qed.

Lemma bind_save_state {B} (id ip : json) (k : unit -> M B) (w : world) :
  bind (save_state id ip) k w =
    k tt (set_state_file (Some (record_text id ip)) w).
Proof. reflexivity. Qed.

Tactic Notation "step" hyp(H) "with" uconstr(Hy) "as" ident(w') :=
  eapply returns_bind; [exact H | exact Hy | clear H; intros w' H; cbv beta].

Ltac calls_at H Hc :=
  pose proof (proj1 (proj2 (proj2 (proj2 (after_state _ _ _ H))))) as Hc;
  rewrite ?length_app, ?repeat_length in Hc; cbn [List.length] in Hc.

(** X18: a [start] that finds no state file, whose create call
    succeeds and returns a string identifier, whose instance is running
    after [n1] queries, has its address after [n2] listings and answers
    the remote shell after [n3] attempts, and whose set-up succeeds,
    returns; it leaves the record of that identifier and address in the
    state file, and has started the create call, the queries, the
    listings, the removal of the host key when there is a file of known
    hosts, the attempts, the bulk upload when there is a work directory,
    the set-up once and the tunnel, in that order. *)
Theorem start_succeeds (env : environment) (fuel n1 n2 n3 : nat) (w : world)
    (id ip : pystr) :
  state_file w = None ->
  (n1 < fuel)%nat -> (n2 < fuel)%nat -> (n3 < fuel)%nat ->
  returncode (respond env (calls w) ScwCreate) = 0 ->
  created_id env w = Val (JStr id) ->
  (forall k, (k < n1)%nat ->
     exists s,
       reported_state (respond env (calls w + 1 + k) (ScwGet (JStr id))) = Val s /\
       eq_str s (py "running") = false) ->
  reported_state (respond env (calls w + 1 + n1) (ScwGet (JStr id)))
  = Val (JStr (py "running")) ->
  (forall k, (k < n2)%nat ->
     exists a,
       listed_address (JStr id) (respond env (calls w + 2 + n1 + k) ScwIpList)
       = Val a /\ truthy a = false) ->
  listed_address (JStr id) (respond env (calls w + 2 + n1 + n2) ScwIpList)
  = Val (JStr ip) ->
  ip <> [] ->
  (forall k, (k < n3)%nat ->
     returncode (respond env (first_remote_call w (JStr ip) n1 n2 + k)
                   (Ssh (JStr ip) EchoOk)) <> 0) ->
  returncode (respond env (first_remote_call w (JStr ip) n1 n2 + n3)
                (Ssh (JStr ip) EchoOk)) = 0 ->
  returncode (respond env (setup_call w (JStr ip) n1 n2 n3)
                (Ssh (JStr ip) SetupScript)) = 0 ->
  exists w',
    start env fuel w = (Ret tt, w') /\
    state_file w' = Some (record_text (JStr id) (JStr ip)) /\
    processes w' = processes w ++ start_processes w (JStr id) (JStr ip) n1 n2 n3.
Proof.
  intros Hnone Hf1 Hf2 Hf3 Hrc Hid Hpend Hrun Hwait Hfound Hip Hdown Hup Hsetup.
  set (Q := fun r : outcome unit * world =>
              exists w', r = (Ret tt, w') /\
                state_file w' = Some (record_text (JStr id) (JStr ip)) /\
                processes w' =
                  processes w ++ start_processes w (JStr id) (JStr ip) n1 n2 n3).
  change (Q (start env fuel w)).
  unfold start.
  pose proof (after_refl w) as H.
  (* no state file *)
  eapply (returns_bind _ _ JNull w w [] []); [exact H | | clear H; intros w1 H].
  { exists w. split; [unfold load_state; rewrite Hnone; reflexivity | apply after_refl]. }
  cbv beta iota delta [truthy].
  step H with (yields_print _ w1) as w2.
  (* the create call *)
  calls_at H Hc2.
  step H with (yields_run env ScwCreate w2 eq_refl) as w3.
  replace (calls w2) with (calls w) by lia. rewrite Hrc.
  change (negb (0 =? 0)) with false. cbv iota.
  unfold created_id in Hid.
  destruct (json_loads (stdout (respond env (calls w) ScwCreate)))
    as [data| |] eqn:Eload; try discriminate Hid.
  cbn [rbind] in Hid.
  step H with (yields_lift (Val data) data w3 eq_refl) as w4.
  step H with (yields_lift _ _ w4 Hid) as w5.
  step H with (yields_print _ w5) as w6.
  (* the instance runs *)
  calls_at H Hc6.
  assert (Hy6 : yields (wait_for_running env fuel (JStr id)) w6 tt
                  (repeat (ScwGet (JStr id)) (S n1))).
  { apply yields_wait_for_running; [exact Hf1 | |].
    - intros k Hk. replace (calls w6 + k)%nat with (calls w + 1 + k)%nat by lia.
      apply Hpend, Hk.
    - replace (calls w6 + n1)%nat with (calls w + 1 + n1)%nat by lia.
      exact Hrun. }
  step H with Hy6 as w7.
  (* the address *)
  calls_at H Hc7.
  assert (Htruthy : truthy (JStr ip) = true)
    by (destruct ip; [contradiction | reflexivity]).
  assert (Hy7 : yields (wait_for_ip env fuel (JStr id)) w7 (JStr ip)
                  (repeat ScwIpList (S n2))).
  { apply yields_wait_for_ip; [exact Hf2 | | | exact Htruthy].
    - intros k Hk.
      replace (calls w7 + k)%nat with (calls w + 2 + n1 + k)%nat by lia.
      apply Hwait, Hk.
    - replace (calls w7 + n2)%nat with (calls w + 2 + n1 + n2)%nat by lia.
      exact Hfound. }
  step H with Hy7 as w8.
  (* the host key *)
  assert (Hy8 : yields (remove_from_known_hosts env (JStr ip)) w8 tt
                  (keygen_processes w (JStr ip))).
  { replace (keygen_processes w (JStr ip)) with (keygen_processes w8 (JStr ip)).
    - apply yields_remove_from_known_hosts.
    - unfold keygen_processes.
      rewrite (proj1 (proj2 (after_state _ _ _ H))). reflexivity. }
  step H with Hy8 as w9.
  (* the record *)
  rewrite bind_save_state.
  destruct (after_state _ _ _ H) as (_ & _ & Hd9 & Hc9 & Hp9).
  rewrite ?length_app, ?repeat_length in Hc9. cbn [List.length] in Hc9.
  set (w10 := set_state_file (Some (record_text (JStr id) (JStr ip))) w9).
  assert (Hc10 : calls w10 = first_remote_call w (JStr ip) n1 n2)
    by (unfold first_remote_call; change (calls w10) with (calls w9); lia).
  clear H. pose proof (after_refl w10) as H.
  (* the remote shell *)
  assert (Hy10 : yields (wait_for_ssh env fuel (JStr ip)) w10 tt
                   (repeat (Ssh (JStr ip) EchoOk) (S n3))).
  { apply yields_wait_for_ssh; [exact Hf3 | |]; rewrite Hc10; assumption. }
  step H with Hy10 as w11.
  (* the bulk upload *)
  assert (Hy11 : yields (upload_work_dir env (JStr ip)) w11 tt
                   (bulk_upload_processes w (JStr ip))).
  { replace (bulk_upload_processes w (JStr ip))
      with (bulk_upload_processes w11 (JStr ip)).
    - apply yields_upload_work_dir.
    - unfold bulk_upload_processes.
      rewrite (proj1 (proj2 (proj2 (after_state _ _ _ H)))).
      change (work_dir w10) with (work_dir w9). rewrite Hd9. reflexivity. }
  step H with Hy11 as w12.
  step H with (yields_print _ w12) as w13.
  (* the set-up *)
  calls_at H Hc13.
  step H with (yields_run env (Ssh (JStr ip) SetupScript) w13 eq_refl) as w14.
  replace (calls w13) with (setup_call w (JStr ip) n1 n2 n3)
    by (unfold setup_call; lia).
  rewrite Hsetup. change (negb (0 =? 0)) with false. cbv iota zeta.
  step H with (yields_print _ w14) as w15.
  step H with (yields_print _ w15) as w16.
  step H with (yields_print _ w16) as w17.
  step H with (yields_print _ w17) as w18.
  step H with (yields_print _ w18) as w19.
  step H with (yields_print _ w19) as w20.
  eapply (returns_bind _ _ tt w10 w20 _ []);
    [exact H | destruct (extract_jupyter_token _); apply yields_print
    | clear H; intros w21 H; cbv beta].
  step H with (yields_print _ w21) as w22.
  (* the tunnel *)
  eapply returns_last;
    [exact H | apply yields_start_ssh_tunnel | clear H; intros w23 H].
  destruct (after_state _ _ _ H) as (Hf & _ & _ & _ & Hp).
  exists w23. split; [reflexivity|]. split; [exact Hf|].
  rewrite Hp. change (processes w10) with (processes w9). rewrite Hp9.
  unfold start_processes. rewrite <- ?app_assoc. reflexivity.
Qed.

Lemma start_succeeds_witness :
  exists w',
    start scenario 3 fresh = (Ret tt, w') /\
    state_file w' = Some (record_text (JStr (py "i-1")) (JStr (py "10.0.0.5"))) /\
    processes w' =
      processes fresh ++
      start_processes fresh (JStr (py "i-1")) (JStr (py "10.0.0.5")) 2 2 2.
Proof.
  apply (start_succeeds scenario 3 2 2 2 fresh (py "i-1") (py "10.0.0.5")).
  - reflexivity.
  - lia.
  - lia.
  - lia.
  - reflexivity.
  - reflexivity.
  - intros k Hk. exists (JStr (py "pending")).
    destruct k as [|[|k]]; [split; reflexivity | split; reflexivity | exfalso; lia].
  - reflexivity.
  - intros k Hk. exists JNull.
    destruct k as [|[|k]]; [split; reflexivity | split; reflexivity | exfalso; lia].
  - reflexivity.
  - discriminate.
  - intros k Hk.
    destruct k as [|[|k]]; [discriminate | discriminate | exfalso; lia].
  - reflexivity.
  - reflexivity.
Defined.
